(** * The model layer of the to-do list application (app/models.py)

    A shallow embedding of [User], [TodoList] and [Todolist] (the item
    class), of the persistence helpers of [BaseModel] and of the two
    validation patterns, followed by the properties of the model layer.

    Conventions of the embedding:
    - a Python [str] is the list of its code points ([len] is [length]);
    - a method that mutates [self] is a computation in the state-and-error
      monad [M]: it maps the object (or the pair of the object and the
      database session) to its new state and either a value or the raised
      exception;
    - [datetime.now(UTC)] and the salt drawn by [generate_password_hash]
      are explicit arguments;
    - a nullable column is an [option]. *)

From Stdlib Require Import ZArith NArith Ascii String List Bool Lia.
From stdpp Require Import base option list gmap.

Local Open Scope Z_scope.

(** ** Python values *)

Module Py.

(** A [str]: the sequence of its Unicode code points. *)
Definition str := list N.

(** A literal of the source, given by its ASCII text. *)
Definition lit (s : string) : str :=
  List.map N_of_ascii (list_ascii_of_string s).

(** [a == b] on strings. *)
Fixpoint str_eqb (a b : str) : bool :=
  match a, b with
  | [], [] => true
  | x :: a', y :: b' => (x =? y)%N && str_eqb a' b'
  | _, _ => false
  end.

(** A point in time ([datetime]); only equality matters here. *)
Definition datetime := Z.

(** [str.isspace] on one code point, which is also the class [\s] of
    [re] on [str] patterns: U+0009..U+000D, U+001C..U+0020, U+0085,
    U+00A0, U+1680, U+2000..U+200A, U+2028, U+2029, U+202F, U+205F,
    U+3000. *)
Definition isspace (c : N) : bool :=
  ((9 <=? c) && (c <=? 13) || (28 <=? c) && (c <=? 32)
   || (c =? 133) || (c =? 160) || (c =? 5760)
   || (8192 <=? c) && (c <=? 8202)
   || (c =? 8232) || (c =? 8233) || (c =? 8239) || (c =? 8287)
   || (c =? 12288))%N.

(** The exceptions that the model layer raises or lets through. *)
Inductive exn : Type :=
| ValueError (msg : str)
| AttributeError (msg : str)
| IntegrityError          (* sqlalchemy.exc: a constraint is violated *)
| InvalidRequestError     (* sqlalchemy.exc: the session is misused *)
| OperationalError        (* sqlalchemy.exc: the database failed *)
| DetachedInstanceError.  (* sqlalchemy.orm.exc: the object has no session *)

Inductive result (A : Type) : Type :=
| Ok (a : A)
| Raise (e : exn).
Arguments Ok {A} a.
Arguments Raise {A} e.

(** State and exceptions: the state reached and the outcome. A raised
    exception keeps the mutations done before it, as in Python. *)
Definition M (S A : Type) : Type := S -> S * result A.

Definition ret {S A} (a : A) : M S A := fun s => (s, Ok a).
Definition raise {S A} (e : exn) : M S A := fun s => (s, Raise e).
Definition bind {S A B} (m : M S A) (k : A -> M S B) : M S B :=
  fun s => match m s with
           | (s', Ok a) => k a s'
           | (s', Raise e) => (s', Raise e)
           end.
Definition modify {S} (f : S -> S) : M S unit := fun s => (f s, Ok tt).

(** [bool(x)] for an optional flag: [None] and [False] are falsy. *)
Definition truthy (b : option bool) : bool :=
  match b with Some true => true | _ => false end.

(** [a or b] where [a] is an optional string: [None] and the empty
    string are falsy. *)
Definition str_or (a : option str) (b : str) : str :=
  match a with
  | Some (c :: r) => c :: r
  | _ => b
  end.

(** [a or b] where [a] is an optional [datetime] (always truthy). *)
Definition datetime_or (a : option datetime) (b : datetime) : datetime :=
  match a with Some d => d | None => b end.

End Py.
Export Py.

Declare Scope py_scope.
Delimit Scope py_scope with py.
Notation "m '>>' k" := (bind m (fun _ => k))
  (at level 62, right associativity) : py_scope.
Local Open Scope py_scope.

(** ** The subset of [re] used by the two patterns *)

Module Re.

Inductive charset : Type :=
| NotSpace            (* \S *)
| Literal (c : N).    (* one given character *)

Definition in_charset (cs : charset) (c : N) : bool :=
  match cs with
  | NotSpace => negb (isspace c)
  | Literal d => (c =? d)%N
  end.

Inductive item : Type :=
| AtBeginning                  (* ^ *)
| AtEnd                        (* $ *)
| One (cs : charset)           (* one character of the set *)
| MaxRepeat1 (cs : charset).   (* greedy + on a set *)

Definition pattern := list item.

(** [$] without MULTILINE: at the end of the string, or just before a
    newline that is the last character of the string. *)
Definition at_end (s : str) : bool :=
  match s with
  | [] => true
  | [c] => (c =? 10)%N
  | _ => false
  end.

(** Backtracking match of [p] against [s]; [bos] tells whether the
    current position is the start of the string. The greedy repeat
    tries the longer run first and falls back to the shorter one. *)
Fixpoint match_here (p : pattern) (bos : bool) (s : str) {struct p} : bool :=
  match p with
  | [] => true
  | AtBeginning :: p' => bos && match_here p' bos s
  | AtEnd :: p' => at_end s && match_here p' bos s
  | One cs :: p' =>
      match s with
      | c :: s' => in_charset cs c && match_here p' false s'
      | [] => false
      end
  | MaxRepeat1 cs :: p' =>
      (fix rep (s : str) : bool :=
         match s with
         | c :: s' => in_charset cs c && (rep s' || match_here p' false s')
         | [] => false
         end) s
  end.

(** [bool(pattern.match(string))]: a match anchored at position 0. *)
Definition match_ (p : pattern) (s : str) : bool := match_here p true s.

End Re.

(** EMAIL_REGEX = re.compile(r"^\S+@\S+\.\S+$") *)
Definition EMAIL_REGEX : Re.pattern :=
  [Re.AtBeginning; Re.MaxRepeat1 Re.NotSpace; Re.One (Re.Literal 64);
   Re.MaxRepeat1 Re.NotSpace; Re.One (Re.Literal 46);
   Re.MaxRepeat1 Re.NotSpace; Re.AtEnd].

(** USERNAME_REGEX = re.compile(r"^\S+$") *)
Definition USERNAME_REGEX : Re.pattern :=
  [Re.AtBeginning; Re.MaxRepeat1 Re.NotSpace; Re.AtEnd].

(** [check_length(attribute, length)]: the attribute is truthy and no
    longer than [length]. *)
Definition check_length (attribute : str) (length : Z) : bool :=
  match attribute with
  | [] => false
  | _ => Z.of_nat (List.length attribute) <=? length
  end.

(** ** The database session

    [db.session] is SQLAlchemy's; the model layer uses four of its
    operations. [session_add] registers an object for insertion or update;
    [session_delete] registers a persistent object for deletion and refuses
    an object that was never persisted (InvalidRequestError); the
    statements reach the database at [session_commit], which is where a
    constraint can fail; [session_rollback] discards the open transaction.
    [session_query] is [cls.query]: the rows of the class in the current
    transaction. *)

Class Session (S : Type) : Type := {
  session_commit : M S unit;
  session_rollback : S -> S
}.

Class Mapped (S E : Type) : Type := {
  session_add : E -> S -> S;
  session_delete : E -> S -> option S;
  session_query : S -> list E
}.

(** ** class BaseModel *)

Module BaseModel.
Section BaseModel.

Context {S E : Type} `{!Session S} `{!Mapped S E}.

(** [__commit]: commit, and roll back on IntegrityError. Any other
    exception of the commit goes through. *)
Definition __commit : M S unit :=
  fun s =>
    match session_commit s with
    | (s', Raise IntegrityError) => (session_rollback s', Ok tt)
    | r => r
    end.

Definition delete (self : E) : M S unit :=
  fun s =>
    match session_delete self s with
    | Some s' => __commit s'
    | None => (s, Raise InvalidRequestError)
    end.

(** [save] returns [self], the reference it was called on. The key and
    the column defaults that the flush writes into a new object are not
    part of this value: the persisted state of an object is its row in
    the session, and an object that was saved is from then on that row. *)
Definition save (self : E) : M S E :=
  modify (session_add self) >> __commit >> ret self.

(** [from_dict]: construct with the keyword arguments of [model_dict],
    then [save]; [cls] is the constructor of the class. *)
Definition from_dict {A : Type} (cls : A -> result E) (model_dict : A) : M S E :=
  match cls model_dict with
  | Ok self => save self
  | Raise e => raise e
  end.

End BaseModel.
End BaseModel.

(** ** werkzeug.security

    The two functions of the password scheme. The salt that
    [generate_password_hash] draws at random is its first argument here. *)

Class Werkzeug : Type := {
  generate_password_hash : str -> str -> str;
  check_password_hash : str -> str -> bool
}.

(** ** class User *)

Module User.

Record t : Type := mk {
  id : option Z;
  _username : option str;
  _email : option str;
  password_hash : option str;
  member_since : option datetime;
  last_seen : option datetime;
  is_admin : option bool
}.

(** The declarative constructor without keyword arguments: every
    attribute is unset until the row is inserted. *)
Definition new : t := mk None None None None None None None.

Definition set__username (v : option str) (u : t) : t :=
  mk (id u) v (_email u) (password_hash u) (member_since u) (last_seen u) (is_admin u).
Definition set__email (v : option str) (u : t) : t :=
  mk (id u) (_username u) v (password_hash u) (member_since u) (last_seen u) (is_admin u).
Definition set_password_hash (v : option str) (u : t) : t :=
  mk (id u) (_username u) (_email u) v (member_since u) (last_seen u) (is_admin u).
Definition set_last_seen (v : option datetime) (u : t) : t :=
  mk (id u) (_username u) (_email u) (password_hash u) (member_since u) v (is_admin u).
Definition set_is_admin (v : option bool) (u : t) : t :=
  mk (id u) (_username u) (_email u) (password_hash u) (member_since u) (last_seen u) v.

(** [username] (getter). *)
Definition username (self : t) : option str := _username self.

(** [username] (setter). *)
Definition username_setter (username : str) : M t unit :=
  let is_valid_length := check_length username 64 in
  if negb is_valid_length || negb (Re.match_ USERNAME_REGEX username)
  then raise (ValueError (username ++ lit " is not a valid username"))
  else modify (set__username (Some username)).

(** [email] (getter). *)
Definition email (self : t) : option str := _email self.

(** [email] (setter). *)
Definition email_setter (email : str) : M t unit :=
  if negb (check_length email 64) || negb (Re.match_ EMAIL_REGEX email)
  then raise (ValueError (email ++ lit " is not a valid email address"))
  else modify (set__email (Some email)).

(** [password] (getter). *)
Definition password (self : t) : result str :=
  Raise (AttributeError (lit "password is not a readable attribute")).

Section Credentials.

Context `{!Werkzeug}.

(** [password] (setter). *)
Definition password_setter (salt : str) (password : str) : M t unit :=
  match password with
  | [] => raise (ValueError (lit "no password given"))
  | _ =>
      let hashed_password := generate_password_hash salt password in
      if 256 <? Z.of_nat (List.length hashed_password)
      then raise (ValueError (lit "not a valid password, hash is too long"))
      else modify (set_password_hash (Some hashed_password))
  end.

(** werkzeug's [check_password_hash] starts by calling a [str] method
    on [pwhash] (it splits it at the dollar signs); on [None] that is an
    AttributeError, which nothing catches. *)
Definition check_password_hash_py (pwhash : option str) (password : str) : result bool :=
  match pwhash with
  | Some h => Ok (check_password_hash h password)
  | None => Raise (AttributeError (lit "'NoneType' object has no attribute 'split'"))
  end.

Definition verify_password (self : t) (password : str) : result bool :=
  check_password_hash_py (password_hash self) password.

End Credentials.

Section Persisted.

Context {S : Type} `{!Session S} `{!Mapped S t}.

(** The state of a method that also saves: the object and the session. *)
Definition seen (now : datetime) : M (t * S) t :=
  fun '(self, s) =>
    let self := set_last_seen (Some now) self in
    let '(s', r) := BaseModel.save self s in
    ((self, s'), r).

Definition promote_to_admin : M (t * S) t :=
  fun '(self, s) =>
    let self := set_is_admin (Some true) self in
    let '(s', r) := BaseModel.save self s in
    ((self, s'), r).

End Persisted.

End User.

(** ** class Todolist (the item of a list)

    The module defines the name [Todolist] twice; the second definition,
    the mapped class, is the one in force. It is placed before [TodoList]
    here because the relationship [TodoList.todos] reads its rows. *)

Module Todolist.

Record t : Type := mk {
  id : option Z;
  description : str;
  created_at : option datetime;
  finished_at : option datetime;
  is_finished : option bool;
  creator : option str;
  Todolist_id : Z
}.

Definition set_finished_at (v : option datetime) (i : t) : t :=
  mk (id i) (description i) (created_at i) v (is_finished i) (creator i) (Todolist_id i).
Definition set_is_finished (v : option bool) (i : t) : t :=
  mk (id i) (description i) (created_at i) (finished_at i) v (creator i) (Todolist_id i).

(** The column defaults ([finished_at]: None, [is_finished]: False) are
    applied when the row is inserted: a new object has both unset. *)
Definition __init__ (description : str) (Todolist_id : Z)
    (creator : option str) (created_at : option datetime) (now : datetime) : t :=
  mk None description (Some (datetime_or created_at now)) None None
     creator Todolist_id.

Definition status (self : t) : str :=
  if truthy (is_finished self) then lit "finished" else lit "open".

Section Persisted.

Context {S : Type} `{!Session S} `{!Mapped S t}.

Definition finished (now : datetime) : M (t * S) unit :=
  fun '(self, s) =>
    let self := set_is_finished (Some true) self in
    let self := set_finished_at (Some now) self in
    let '(s', r) := BaseModel.save self s in
    ((self, s'), match r with Ok _ => Ok tt | Raise e => Raise e end).

Definition reopen : M (t * S) unit :=
  fun '(self, s) =>
    let self := set_is_finished (Some false) self in
    let self := set_finished_at None self in
    let '(s', r) := BaseModel.save self s in
    ((self, s'), match r with Ok _ => Ok tt | Raise e => Raise e end).

End Persisted.

End Todolist.

(** ** class TodoList *)

Module TodoList.

Record t : Type := mk {
  id : option Z;
  _title : option str;
  created_at : option datetime;
  creator : option str
}.

Definition set__title (v : option str) (l : t) : t :=
  mk (id l) v (created_at l) (creator l).
Definition set_created_at (v : option datetime) (l : t) : t :=
  mk (id l) (_title l) v (creator l).
Definition set_creator (v : option str) (l : t) : t :=
  mk (id l) (_title l) (created_at l) v.

(** [title] (getter). *)
Definition title (self : t) : option str := _title self.

(** [title] (setter). *)
Definition title_setter (title : str) : M t unit :=
  if negb (check_length title 128)
  then raise (ValueError (title ++ lit " is not a valid title"))
  else modify (set__title (Some title)).

(** [__init__]: the three assignments on the fresh object; an exception
    of the title setter leaves no object. *)
Definition __init__ (title : option str) (creator : option str)
    (created_at : option datetime) (now : datetime) : result t :=
  let body :=
    title_setter (str_or title (lit "untitled")) >>
    modify (set_creator creator) >>
    modify (set_created_at (Some (datetime_or created_at now))) in
  match body (mk None None None None) with
  | (self, Ok _) => Ok self
  | (_, Raise e) => Raise e
  end.

Section Counts.

Context {S : Type} `{!Mapped S t} `{!Mapped S Todolist.t}.

(** The object is bound to the session ([object_session] finds one for
    it): it has a key and the session holds the row of that key. A new
    object, one whose insert was rolled back and one that was deleted
    are not bound. *)
Definition bound (self : t) (s : S) : bool :=
  match id self with
  | Some k =>
      existsb (fun l => match id l with Some k' => k' =? k | None => false end)
        (session_query s)
  | None => false
  end.

(** [todos]: the dynamic relationship, a query for the items whose
    [Todolist_id] is the key of this list. *)
Definition todos (self : t) (s : S) : list Todolist.t :=
  List.filter
    (fun i => match id self with
              | Some k => Todolist.Todolist_id i =? k
              | None => false
              end)
    (session_query s).

(** [order_by] and [filter_by] on the relationship derive a query of the
    session of the parent; without one they raise DetachedInstanceError. *)
Definition derived (self : t) (s : S) (q : list Todolist.t) : result (list Todolist.t) :=
  if bound self s then Ok q else Raise DetachedInstanceError.

(** [filter_by(is_finished=b)]: a NULL flag equals neither value. *)
Definition filter_by_is_finished (b : bool) (q : list Todolist.t) : list Todolist.t :=
  List.filter
    (fun i => match Todolist.is_finished i with
              | Some b' => Bool.eqb b' b
              | None => false
              end) q.

Definition count (q : list Todolist.t) : Z := Z.of_nat (List.length q).

Definition todo_count (self : t) (s : S) : result Z :=
  match derived self s (todos self s) with
  | Ok q => Ok (count q)
  | Raise e => Raise e
  end.

Definition finished_count (self : t) (s : S) : result Z :=
  match derived self s (todos self s) with
  | Ok q => Ok (count (filter_by_is_finished true q))
  | Raise e => Raise e
  end.

Definition open_count (self : t) (s : S) : result Z :=
  match derived self s (todos self s) with
  | Ok q => Ok (count (filter_by_is_finished false q))
  | Raise e => Raise e
  end.

End Counts.

End TodoList.

(** ** An in-memory database

    A concrete session on which the model layer runs: one table per
    mapped class, keyed by the primary key, the state of the open
    transaction next to the committed one, and the two UNIQUE columns of
    [user] checked when the transaction is committed. *)

Module MemDb.

Record tables : Type := Tables {
  users : gmap Z User.t;
  lists : gmap Z TodoList.t;
  items : gmap Z Todolist.t
}.

Record t : Type := mk {
  committed : tables;
  working : tables;
  utcnow : datetime   (* the clock read by the column defaults *)
}.

Definition empty (now : datetime) : t :=
  mk (Tables ∅ ∅ ∅) (Tables ∅ ∅ ∅) now.

Definition rows {A : Type} (tbl : gmap Z A) : list A := (map_to_list tbl).*2.

(** The key given to a new row: one more than the largest key. *)
Definition next_id {A : Type} (tbl : gmap Z A) : Z :=
  1 + foldr Z.max 0 (map_to_list tbl).*1.

(** INSERT or UPDATE of one object. [fill k] is the inserted row: the
    object with its key and with the column defaults in place of the
    unset attributes. A value without key is a new object, and each add
    of such a value is the add of another new object; the object that was
    inserted is, from then on, the row with its key. *)
Definition upsert {A : Type} (key : A -> option Z) (fill : Z -> A -> A)
    (obj : A) (tbl : gmap Z A) : gmap Z A :=
  match key obj with
  | Some k =>
      match tbl !! k with
      | Some _ => <[k := obj]> tbl
      | None => <[k := fill k obj]> tbl
      end
  | None => let k := next_id tbl in <[k := fill k obj]> tbl
  end.

(** DELETE of a persistent object; [None] when it has no row. *)
Definition remove {A : Type} (key : A -> option Z) (obj : A)
    (tbl : gmap Z A) : option (gmap Z A) :=
  match key obj with
  | Some k =>
      match tbl !! k with
      | Some _ => Some (delete k tbl)
      | None => None
      end
  | None => None
  end.

Definition default {A : Type} (d : A) (v : option A) : option A :=
  match v with Some x => Some x | None => Some d end.

Definition fill_user (now : datetime) (k : Z) (u : User.t) : User.t :=
  User.mk (Some k) (User._username u) (User._email u) (User.password_hash u)
    (default now (User.member_since u)) (default now (User.last_seen u))
    (default false (User.is_admin u)).

Definition fill_list (now : datetime) (k : Z) (l : TodoList.t) : TodoList.t :=
  TodoList.mk (Some k) (TodoList._title l)
    (default now (TodoList.created_at l)) (TodoList.creator l).

Definition fill_item (now : datetime) (k : Z) (i : Todolist.t) : Todolist.t :=
  Todolist.mk (Some k) (Todolist.description i)
    (default now (Todolist.created_at i)) (Todolist.finished_at i)
    (default false (Todolist.is_finished i)) (Todolist.creator i)
    (Todolist.Todolist_id i).

Definition on_working (f : tables -> tables) (s : t) : t :=
  mk (committed s) (f (working s)) (utcnow s).

Definition on_working_opt (f : tables -> option tables) (s : t) : option t :=
  match f (working s) with
  | Some w => Some (mk (committed s) w (utcnow s))
  | None => None
  end.

Fixpoint distinct (l : list str) : bool :=
  match l with
  | [] => true
  | x :: r => negb (existsb (str_eqb x) r) && distinct r
  end.

(** UNIQUE on [user.username] and on [user.email]; NULLs never clash. *)
Definition unique_ok (w : tables) : bool :=
  distinct (omap User._username (rows (users w)))
  && distinct (omap User._email (rows (users w))).

Definition commit : M t unit :=
  fun s =>
    if unique_ok (working s)
    then (mk (working s) (working s) (utcnow s), Ok tt)
    else (s, Raise IntegrityError).

Definition rollback (s : t) : t := mk (committed s) (committed s) (utcnow s).

#[global] Instance session : Session t :=
  {| session_commit := commit; session_rollback := rollback |}.

#[global] Instance mapped_user : Mapped t User.t :=
  {| session_add u s :=
       on_working (fun w => Tables (upsert User.id (fill_user (utcnow s)) u (users w))
                                   (lists w) (items w)) s;
     session_delete u :=
       on_working_opt (fun w => match remove User.id u (users w) with
                                | Some us => Some (Tables us (lists w) (items w))
                                | None => None
                                end);
     session_query s := rows (users (working s)) |}.

#[global] Instance mapped_list : Mapped t TodoList.t :=
  {| session_add l s :=
       on_working (fun w => Tables (users w)
                                   (upsert TodoList.id (fill_list (utcnow s)) l (lists w))
                                   (items w)) s;
     session_delete l :=
       on_working_opt (fun w => match remove TodoList.id l (lists w) with
                                | Some ls => Some (Tables (users w) ls (items w))
                                | None => None
                                end);
     session_query s := rows (lists (working s)) |}.

#[global] Instance mapped_item : Mapped t Todolist.t :=
  {| session_add i s :=
       on_working (fun w => Tables (users w) (lists w)
                                   (upsert Todolist.id (fill_item (utcnow s)) i (items w))) s;
     session_delete i :=
       on_working_opt (fun w => match remove Todolist.id i (items w) with
                                | Some ts => Some (Tables (users w) (lists w) ts)
                                | None => None
                                end);
     session_query s := rows (items (working s)) |}.

End MemDb.

(** * The vocabulary of the properties *)

(** A string without any whitespace character. *)
Definition no_whitespace (s : str) : Prop := Forall (fun c => isspace c = false) s.

(** A handle as the data model wants it: non-empty, of at most 64
    characters, without whitespace. *)
Definition valid_handle (h : str) : Prop :=
  h <> [] /\ Z.of_nat (length h) <= 64 /\ no_whitespace h.

(** An address of the shape non-space, at sign, non-space, dot,
    non-space. *)
Definition email_shaped (v : str) : Prop :=
  exists a b c,
    a <> [] /\ b <> [] /\ c <> [] /\
    no_whitespace a /\ no_whitespace b /\ no_whitespace c /\
    v = a ++ 64%N :: b ++ 46%N :: c.

(** An identity scheme that stands for the hashing library where a
    concrete one is needed: the "hash" is the length of the salt, the salt
    and the password, and checking compares what follows the salt. *)
Definition plain_scheme : Werkzeug :=
  {| generate_password_hash salt password :=
       N.of_nat (length salt) :: salt ++ password;
     check_password_hash pwhash password :=
       match pwhash with
       | n :: rest => str_eqb (drop (N.to_nat n) rest) password
       | [] => false
       end |}.

(** finished implies [finished_at] set; open implies [finished_at] None. *)
Definition consistent (i : Todolist.t) : bool :=
  if truthy (Todolist.is_finished i)
  then match Todolist.finished_at i with Some _ => true | None => false end
  else match Todolist.finished_at i with Some _ => false | None => true end.

(** The operations of an item after its construction. *)
Inductive item_op : Type :=
| OpFinished (now : datetime)
| OpReopen
| OpSave
| OpDelete.

Section ItemRuns.

Context {S : Type} `{!Session S} `{!Mapped S Todolist.t}.

Definition item_step (op : item_op) : M (Todolist.t * S) unit :=
  match op with
  | OpFinished now => Todolist.finished now
  | OpReopen => Todolist.reopen
  | OpSave =>
      fun '(self, s) =>
        let '(s', r) := BaseModel.save self s in
        ((self, s'), match r with Ok _ => Ok tt | Raise e => Raise e end)
  | OpDelete =>
      fun '(self, s) =>
        let '(s', r) := BaseModel.delete self s in ((self, s'), r)
  end.

(** A run of operations; an operation that raises leaves the state it
    reached, and the run goes on from there (the caller caught it). *)
Fixpoint item_run (ops : list item_op) (st : Todolist.t * S) : Todolist.t * S :=
  match ops with
  | [] => st
  | op :: ops' => item_run ops' (fst (item_step op st))
  end.

End ItemRuns.

Section Owned.

Context {S : Type} `{!Mapped S Todolist.t}.

(** The items that a list owns, among the rows of the session. *)
Definition owned (l : TodoList.t) (s : S) : list Todolist.t :=
  filter (fun i => TodoList.id l = Some (Todolist.Todolist_id i)) (session_query s).

End Owned.

(** ** Runs on the in-memory database *)

Module Scenario.

Import MemDb.

Definition saved {E : Type} `{!Mapped MemDb.t E} (self : E) (s : MemDb.t) : MemDb.t :=
  fst (BaseModel.save self s).

(** Two accounts with the same handle. *)
Definition ann : User.t := fst (User.username_setter (lit "ann") User.new).
Definition db_ann : MemDb.t := saved ann (MemDb.empty 10).

(** [TodoList.query.get(k)] and [Todolist.query.get(k)]. *)
Definition get_list (k : Z) (s : MemDb.t) : option TodoList.t := lists (working s) !! k.
Definition get_item (k : Z) (s : MemDb.t) : option Todolist.t := items (working s) !! k.

(** One list with three items. *)
Definition db1 : MemDb.t :=
  match TodoList.__init__ (Some (lit "groceries")) None None 1 with
  | Ok l => saved l (MemDb.empty 10)
  | Raise _ => MemDb.empty 10
  end.
Definition db2 : MemDb.t := saved (Todolist.__init__ (lit "milk") 1 None None 2) db1.
Definition db3 : MemDb.t := saved (Todolist.__init__ (lit "eggs") 1 None None 3) db2.
Definition db4 : MemDb.t := saved (Todolist.__init__ (lit "tea") 1 None None 4) db3.

(** [Todolist.query.get(k).finished()] at time [now]. *)
Definition finish (k : Z) (now : datetime) (s : MemDb.t) : MemDb.t :=
  match get_item k s with
  | Some i => snd (fst (Todolist.finished now (i, s)))
  | None => s
  end.

Definition db5 : MemDb.t := finish 2 5 db4.
Definition db6 : MemDb.t := finish 3 6 db5.

(** The three counts of list [k], each a query on the session [s]. *)
Definition counts (k : Z) (s : MemDb.t) : option (result Z * result Z * result Z) :=
  match get_list k s with
  | Some l => Some (TodoList.todo_count l s, TodoList.finished_count l s,
                    TodoList.open_count l s)
  | None => None
  end.

(** A store given row by row: the list of key 1 and its three items,
    the second one finished. *)
Definition shop : TodoList.t :=
  TodoList.mk (Some 1) (Some (lit "groceries")) (Some 1) None.

Definition shop_db : MemDb.t :=
  let rows :=
    Tables ∅ {[ 1 := shop ]}
      {[ 1 := Todolist.mk (Some 1) (lit "milk") (Some 2) None (Some false) None 1;
         2 := Todolist.mk (Some 2) (lit "eggs") (Some 3) (Some 5) (Some true) None 1;
         3 := Todolist.mk (Some 3) (lit "tea") (Some 4) None (Some false) None 1 ]} in
  MemDb.mk rows rows 0.

(** A list as the constructor leaves it, not yet saved. *)
Definition unsaved : TodoList.t :=
  TodoList.mk None (Some (lit "untitled")) (Some 0) None.

End Scenario.

(** * The rest of the model layer and the configuration *)

(** ** Values of any type

    What an attribute or an entry of a projected mapping can hold. *)

#[warnings="-register-all"]
Inductive value : Type :=
| VNone
| VBool (b : bool)
| VInt (n : Z)
| VStr (s : str)
| VDatetime (d : datetime)
| VBytes (b : list N)
| VList (l : list value)
| VTuple (l : list value)
| VSet (l : list value)
| VDict (d : list (value * value)).

Definition of_opt_str (o : option str) : value :=
  match o with Some s => VStr s | None => VNone end.

Definition of_opt_datetime (o : option datetime) : value :=
  match o with Some d => VDatetime d | None => VNone end.

Definition of_opt_int (o : option Z) : value :=
  match o with Some n => VInt n | None => VNone end.

(** [len(v)]; [None] stands for the TypeError of a value without
    length. A set and a dict are given by their distinct elements and
    keys. *)
Definition len (v : value) : option Z :=
  match v with
  | VStr s => Some (Z.of_nat (length s))
  | VBytes b => Some (Z.of_nat (length b))
  | VList l | VTuple l | VSet l => Some (Z.of_nat (length l))
  | VDict d => Some (Z.of_nat (length d))
  | VNone | VBool _ | VInt _ | VDatetime _ => None
  end.

(** [bool(v)]: a value with a length is truthy when it is not empty. *)
Definition truth (v : value) : bool :=
  match v with
  | VNone => false
  | VBool b => b
  | VInt n => negb (n =? 0)
  | VDatetime _ => true
  | VStr _ | VBytes _ | VList _ | VTuple _ | VSet _ | VDict _ =>
      match len v with Some n => 0 <? n | None => false end
  end.

(** [check_length] as the source has it, on a value of any type: the
    conjunction is evaluated inside [try], and the bare [except] turns
    every exception into False. *)
Definition check_length_any (attribute : value) (length : Z) : bool :=
  let tried :=
    if truth attribute
    then match len attribute with
         | Some n => Some (n <=? length)
         | None => None
         end
    else Some false in
  match tried with
  | Some b => b
  | None => false
  end.

(** How an f-string or [str.format] shows an optional string. *)
Definition show (o : option str) : str :=
  match o with Some s => s | None => lit "None" end.

(** ** flask.url_for

    The URL builder of the web framework: an endpoint name and the keyword
    arguments of the call. *)

Class Flask : Type := {
  url_for : str -> list (string * value) -> str
}.

(** ** User: [__repr__], the relationship [Todolists] and [to_dict] *)

Module UserViews.

Definition __repr__ (self : User.t) : str :=
  if truthy (User.is_admin self)
  then lit "<Admin " ++ show (User.username self) ++ lit ">"
  else lit "<User " ++ show (User.username self) ++ lit ">".

Section Projection.

Context {S : Type} `{!Mapped S TodoList.t} `{!Flask}.

(** [Todolists]: the lists whose [creator] is the handle of this user
    (the foreign key of [TodoList.creator]); NULL joins nothing. *)
Definition Todolists (self : User.t) (s : S) : list TodoList.t :=
  List.filter
    (fun l => match User.username self, TodoList.creator l with
              | Some a, Some b => str_eqb a b
              | _, _ => false
              end)
    (session_query s).

Definition to_dict (self : User.t) (s : S) : list (string * value) :=
  [ ("username"%string, of_opt_str (User.username self));
    ("user_url"%string,
      VStr (url_for (lit "api.get_user")
              [("username"%string, of_opt_str (User.username self));
               ("_external"%string, VBool true)]));
    ("member_since"%string, of_opt_datetime (User.member_since self));
    ("last_seen"%string, of_opt_datetime (User.last_seen self));
    ("Todolists"%string,
      VStr (url_for (lit "api.get_user_Todolists")
              [("username"%string, of_opt_str (User.username self));
               ("_external"%string, VBool true)]));
    ("Todolist_count"%string, VInt (Z.of_nat (length (Todolists self s)))) ].

End Projection.

End UserViews.

(** ** Todolist: [to_dict] *)

Module TodolistViews.

Definition to_dict (self : Todolist.t) : list (string * value) :=
  [ ("description"%string, VStr (Todolist.description self));
    ("creator"%string, of_opt_str (Todolist.creator self));
    ("created_at"%string, of_opt_datetime (Todolist.created_at self));
    ("status"%string, VStr (Todolist.status self)) ].

End TodolistViews.

(** ** TodoList: [todos_url] and [to_dict] *)

Module TodoListViews.

Section Projection.

Context {S : Type} `{!Mapped S TodoList.t} `{!Mapped S Todolist.t} `{!Flask}.

(** [todos_url]: the user-scoped endpoint, with the creator as
    [username], when the creator is truthy; the list-scoped one
    otherwise. *)
Definition todos_url (self : TodoList.t) : str :=
  let kwargs := [("Todolist_id"%string, of_opt_int (TodoList.id self));
                 ("_external"%string, VBool true)] in
  match TodoList.creator self with
  | Some (c :: r) =>
      url_for (lit "api.get_user_Todolist_todos")
        (kwargs ++ [("username"%string, VStr (c :: r))])
  | _ => url_for (lit "api.get_Todolist_todos") kwargs
  end.

(** The entries are evaluated in order: the first count that raises
    ends the call. *)
Definition to_dict (self : TodoList.t) (s : S) : result (list (string * value)) :=
  match TodoList.todo_count self s with
  | Raise e => Raise e
  | Ok total =>
  match TodoList.open_count self s with
  | Raise e => Raise e
  | Ok open =>
  match TodoList.finished_count self s with
  | Raise e => Raise e
  | Ok finished =>
      Ok [ ("title"%string, of_opt_str (TodoList.title self));
           ("creator"%string, of_opt_str (TodoList.creator self));
           ("created_at"%string, of_opt_datetime (TodoList.created_at self));
           ("total_todo_count"%string, VInt total);
           ("open_todo_count"%string, VInt open);
           ("finished_todo_count"%string, VInt finished);
           ("todos"%string, VStr (todos_url self)) ]
  end end end.

End Projection.

End TodoListViews.

(** ** config.py *)

Module Config.

(** [os.path.join(a, b)] on a POSIX system: an absolute [b] replaces
    [a]; otherwise [b] is appended, after a slash unless [a] is empty or
    ends in one. *)
Definition path_join (a b : str) : str :=
  match b with
  | 47%N :: _ => b
  | _ =>
      match a with
      | [] => a ++ b
      | _ => if (List.last a 0%N =? 47)%N then a ++ b else a ++ 47%N :: b
      end
  end.

(** [create_sqlite_uri]; [BASEDIR] is the directory of the module. *)
Definition create_sqlite_uri (BASEDIR : str) (db_name : str) : str :=
  lit "sqlite:///" ++ path_join BASEDIR db_name.

(** The attributes of a configuration class, inherited ones included;
    an attribute that a class does not have is [None]. *)
Record t : Type := mk {
  SECRET_KEY : str;
  SQLALCHEMY_COMMIT_ON_TEARDOWN : bool;
  SQLALCHEMY_RECORD_QUERIES : bool;
  SQLALCHEMY_TRACK_MODIFICATIONS : bool;
  DEBUG : option bool;
  TESTING : option bool;
  WTF_CSRF_ENABLED : option bool;
  SQLALCHEMY_DATABASE_URI : option str
}.

Section Environment.

(** The directory of config.py and the value of the environment
    variable SECRET_KEY, if it is set. *)
Variable BASEDIR : str.
Variable environ_SECRET_KEY : option str.

Definition Config : t :=
  mk (str_or environ_SECRET_KEY (lit "secret key, just for testing"))
     true true false None None None None.

Definition DevelopmentConfig : t :=
  mk (SECRET_KEY Config) true true false (Some true) None None
     (Some (create_sqlite_uri BASEDIR (lit "todolist-dev.db"))).

Definition TestingConfig : t :=
  mk (SECRET_KEY Config) true true false None (Some true) (Some false)
     (Some (create_sqlite_uri BASEDIR (lit "todolist-test.db"))).

Definition ProductionConfig : t :=
  mk (SECRET_KEY Config) true true false None None None
     (Some (create_sqlite_uri BASEDIR (lit "todolist.db"))).

(** The dictionary [config]; a missing key is [None] (KeyError). *)
Definition config (name : string) : option t :=
  if String.eqb name "development" then Some DevelopmentConfig
  else if String.eqb name "testing" then Some TestingConfig
  else if String.eqb name "production" then Some ProductionConfig
  else if String.eqb name "default" then Some DevelopmentConfig
  else None.

End Environment.

End Config.

(** * More vocabulary of the properties *)

(** A handle that the username setter stores: of at most 64 characters,
    a non-empty run without whitespace, alone or before a final newline. *)
Definition accepted_handle (h : str) : Prop :=
  Z.of_nat (length h) <= 64 /\
  ((h <> [] /\ no_whitespace h)
   \/ exists w, w <> [] /\ no_whitespace w /\ h = w ++ [10%N]).

(** An address that the email setter stores. *)
Definition accepted_address (v : str) : Prop :=
  Z.of_nat (length v) <= 64 /\
  (email_shaped v \/ exists w, email_shaped w /\ v = w ++ [10%N]).

(** The operations on an account after its construction. *)
Inductive user_op : Type :=
| UOpUsername (v : str)
| UOpEmail (v : str)
| UOpPassword (salt p : str)
| UOpSeen (now : datetime)
| UOpPromote
| UOpSave
| UOpDelete.

(** The operations on a list after its construction. *)
Inductive list_op : Type :=
| LOpTitle (v : str)
| LOpSave
| LOpDelete.

Section Runs.

Context {S : Type} `{!Session S}.

(** A method of the object alone, run next to the session. *)
Definition on_object {A B : Type} (m : M A B) : M (A * S) B :=
  fun '(self, s) => let '(self', r) := m self in ((self', s), r).

(** [save] and [delete] of the object at hand, the result dropped. *)
Definition save_it {A : Type} `{!Mapped S A} : M (A * S) unit :=
  fun '(self, s) =>
    let '(s', r) := BaseModel.save self s in
    ((self, s'), match r with Ok _ => Ok tt | Raise e => Raise e end).

Definition delete_it {A : Type} `{!Mapped S A} : M (A * S) unit :=
  fun '(self, s) =>
    let '(s', r) := BaseModel.delete self s in ((self, s'), r).

Definition drop_value {A B : Type} (m : M A B) : M A unit :=
  fun a => let '(a', r) := m a in
           (a', match r with Ok _ => Ok tt | Raise e => Raise e end).

Context `{!Mapped S User.t} `{!Mapped S TodoList.t} `{!Werkzeug}.

Definition user_step (op : user_op) : M (User.t * S) unit :=
  match op with
  | UOpUsername v => on_object (User.username_setter v)
  | UOpEmail v => on_object (User.email_setter v)
  | UOpPassword salt p => on_object (User.password_setter salt p)
  | UOpSeen now => drop_value (User.seen now)
  | UOpPromote => drop_value User.promote_to_admin
  | UOpSave => save_it
  | UOpDelete => delete_it
  end.

(** A run of operations; one that raises leaves the state it reached,
    and the run goes on from there. *)
Fixpoint user_run (ops : list user_op) (st : User.t * S) : User.t * S :=
  match ops with
  | [] => st
  | op :: ops' => user_run ops' (fst (user_step op st))
  end.

Definition list_step (op : list_op) : M (TodoList.t * S) unit :=
  match op with
  | LOpTitle v => on_object (TodoList.title_setter v)
  | LOpSave => save_it
  | LOpDelete => delete_it
  end.

Fixpoint list_run (ops : list list_op) (st : TodoList.t * S) : TodoList.t * S :=
  match ops with
  | [] => st
  | op :: ops' => list_run ops' (fst (list_step op st))
  end.

End Runs.

(** A path that does not start with a slash. *)
Definition relative (p : str) : Prop := forall r, p <> 47%N :: r.

(** What [os.path.join] puts before a relative second component. *)
Definition join_prefix (a : str) : str :=
  match a with
  | [] => []
  | _ => if (List.last a 0%N =? 47)%N then a else a ++ [47%N]
  end.


(** A database that is down: every commit raises OperationalError. *)
Definition down_session : Session unit :=
  {| session_commit := raise OperationalError; session_rollback := fun s => s |}.

Definition down_mapped (E : Type) : Mapped unit E :=
  {| session_add := fun _ s => s;
     session_delete := fun _ s => Some s;
     session_query := fun _ => [] |}.

(** The keyword arguments of the [TodoList] constructor, and the
    constructor applied to them at time [now]. *)
Definition TodoList_kwargs : Type := option str * option str * option datetime.

Definition TodoList_cls (now : datetime) (kw : TodoList_kwargs) : result TodoList.t :=
  let '(title, creator, created_at) := kw in
  TodoList.__init__ title creator created_at now.

(** * Properties *)

(** ** Strings and the two patterns *)


Lemma str_eqb_eq (a b : str) : str_eqb a b = true <-> a = b.
Proof.
  revert b; induction a as [|x a IH]; intros [|y b]; simpl;
    try (split; [discriminate | congruence]); [tauto|].
  rewrite andb_true_iff, N.eqb_eq, IH.
  split; [intros [-> ->]; reflexivity | intros [= -> ->]; auto].
Qed.

Lemma forallb_not_space (s : str) :
  forallb (Re.in_charset Re.NotSpace) s = true <-> no_whitespace s.
Proof.
  unfold no_whitespace. rewrite forallb_forall, List.Forall_forall.
  split; intros H c Hc; specialize (H c Hc); simpl in *;
    destruct (isspace c); simpl in *; congruence.
Qed.

Lemma check_length_spec (s : str) (n : Z) :
  check_length s n = true <-> s <> [] /\ Z.of_nat (length s) <= n.
Proof.
  destruct s as [|c s]; simpl.
  - split; [discriminate | intros [H _]; congruence].
  - rewrite Z.leb_le. split; [intros H; split; [discriminate | exact H] | tauto].
Qed.

Lemma at_end_spec (s : str) : Re.at_end s = true <-> s = [] \/ s = [10%N].
Proof.
  destruct s as [|c [|d s]]; simpl.
  - tauto.
  - rewrite N.eqb_eq. split; [intros ->; auto | intros [H | [= ->]]; congruence].
  - split; [discriminate | intros [H | H]; discriminate].
Qed.

Lemma match_here_repeat_cons cs p bos c s :
  Re.match_here (Re.MaxRepeat1 cs :: p) bos (c :: s)
  = Re.in_charset cs c
    && (Re.match_here (Re.MaxRepeat1 cs :: p) bos s || Re.match_here p false s).
Proof. reflexivity. Qed.

(** The greedy repeat with backtracking finds a match exactly when some
    non-empty run of the set can be followed by a match of the rest. *)
Lemma match_here_repeat cs p bos s :
  Re.match_here (Re.MaxRepeat1 cs :: p) bos s = true <->
  exists a r, s = a ++ r /\ a <> [] /\ forallb (Re.in_charset cs) a = true
              /\ Re.match_here p false r = true.
Proof.
  induction s as [|c s IH].
  - split; [discriminate|].
    intros (a & r & Heq & Hne & _). destruct a; [congruence | discriminate].
  - rewrite match_here_repeat_cons, andb_true_iff, orb_true_iff, IH. split.
    + intros [Hc [(a & r & -> & Hne & Ha & Hr) | Hr]].
      * exists (c :: a), r. simpl. rewrite Hc, Ha. repeat split; auto; discriminate.
      * exists [c], s. simpl. rewrite Hc. repeat split; auto; discriminate.
    + intros (a & r & Heq & Hne & Ha & Hr).
      destruct a as [|c' a]; [congruence|].
      simpl in Heq, Ha. injection Heq as <- ->.
      apply andb_true_iff in Ha as [Hc Ha]. split; [exact Hc|].
      destruct a as [|d a]; [right; exact Hr|].
      left. exists (d :: a), r. repeat split; auto; discriminate.
Qed.

Lemma match_here_one cs p bos s :
  Re.match_here (Re.One cs :: p) bos s = true <->
  exists c r, s = c :: r /\ Re.in_charset cs c = true /\ Re.match_here p false r = true.
Proof.
  destruct s as [|c s]; simpl.
  - split; [discriminate | intros (c & r & H & _); discriminate].
  - rewrite andb_true_iff. split.
    + intros [H1 H2]. exists c, s. auto.
    + intros (c' & r & [= -> ->] & H1 & H2). auto.
Qed.

(** What USERNAME_REGEX accepts: a non-empty run without whitespace,
    alone or followed by one final newline. *)
Lemma USERNAME_REGEX_spec (s : str) :
  Re.match_ USERNAME_REGEX s = true <->
  exists a, a <> [] /\ no_whitespace a /\ (s = a \/ s = a ++ [10%N]).
Proof.
  unfold Re.match_, USERNAME_REGEX.
  change (Re.match_here (Re.AtBeginning :: ?p) true s)
    with (true && Re.match_here p true s).
  rewrite andb_true_l, match_here_repeat. split.
  - intros (a & r & -> & Hne & Ha & Hr). simpl in Hr.
    rewrite andb_true_r in Hr. apply at_end_spec in Hr.
    exists a. rewrite <- forallb_not_space.
    destruct Hr as [-> | ->]; rewrite ?app_nil_r; auto.
  - intros (a & Hne & Ha & Hs). apply forallb_not_space in Ha.
    destruct Hs as [-> | ->].
    + exists a, []. rewrite app_nil_r. auto.
    + exists a, [10%N]. auto.
Qed.

(** What EMAIL_REGEX accepts: three non-empty runs without whitespace
    around an at sign and a dot, alone or followed by one final newline. *)
Lemma EMAIL_REGEX_spec (s : str) :
  Re.match_ EMAIL_REGEX s = true <->
  exists a b c,
    a <> [] /\ b <> [] /\ c <> [] /\
    no_whitespace a /\ no_whitespace b /\ no_whitespace c /\
    (s = a ++ 64%N :: b ++ 46%N :: c \/ s = (a ++ 64%N :: b ++ 46%N :: c) ++ [10%N]).
Proof.
  unfold Re.match_, EMAIL_REGEX.
  change (Re.match_here (Re.AtBeginning :: ?p) true s)
    with (true && Re.match_here p true s).
  rewrite andb_true_l, match_here_repeat. split.
  - intros (a & r1 & -> & Hna & Ha & H1).
    apply match_here_one in H1 as (x & r2 & -> & Hx & H2).
    apply match_here_repeat in H2 as (b & r3 & -> & Hnb & Hb & H3).
    apply match_here_one in H3 as (y & r4 & -> & Hy & H4).
    apply match_here_repeat in H4 as (c & r5 & -> & Hnc & Hc & H5).
    simpl in Hx, Hy, H5. apply N.eqb_eq in Hx, Hy. subst x y.
    rewrite andb_true_r in H5. apply at_end_spec in H5.
    exists a, b, c. rewrite <- !forallb_not_space.
    repeat (split; [assumption|]).
    destruct H5 as [-> | ->]; [left | right].
    + now rewrite app_nil_r.
    + now rewrite <- !app_assoc, <- !app_comm_cons, <- !app_assoc.
  - intros (a & b & c & Hna & Hnb & Hnc & Ha & Hb & Hc & Hs).
    apply forallb_not_space in Ha, Hb, Hc.
    assert (Hgen : forall r, Re.at_end r = true ->
              exists a0 r0, (a ++ 64%N :: b ++ 46%N :: c) ++ r = a0 ++ r0 /\
                a0 <> [] /\ forallb (Re.in_charset Re.NotSpace) a0 = true /\
                Re.match_here [Re.One (Re.Literal 64); Re.MaxRepeat1 Re.NotSpace;
                               Re.One (Re.Literal 46); Re.MaxRepeat1 Re.NotSpace;
                               Re.AtEnd] false r0 = true).
    { intros r Hr. exists a, (64%N :: b ++ 46%N :: c ++ r).
      split; [now rewrite <- !app_assoc, <- !app_comm_cons, <- !app_assoc|].
      split; [assumption|]. split; [assumption|].
      apply match_here_one. exists 64%N, (b ++ 46%N :: c ++ r).
      split; [reflexivity|]. split; [reflexivity|].
      apply match_here_repeat. exists b, (46%N :: c ++ r).
      split; [reflexivity|]. split; [assumption|]. split; [assumption|].
      apply match_here_one. exists 46%N, (c ++ r).
      split; [reflexivity|]. split; [reflexivity|].
      apply match_here_repeat. exists c, r.
      split; [reflexivity|]. split; [assumption|]. split; [assumption|].
      simpl. now rewrite Hr. }
    destruct Hs as [-> | ->].
    + rewrite <- (app_nil_r (a ++ _)). apply Hgen. reflexivity.
    + apply Hgen. reflexivity.
Qed.

(** ** User: the username and the email setters *)

(** A setter either stores the value or raises and leaves the object as
    it was. *)
Lemma username_setter_cases (h : str) (u : User.t) :
  User.username_setter h u = (User.set__username (Some h) u, Ok tt)
  \/ User.username_setter h u
     = (u, Raise (ValueError (h ++ lit " is not a valid username"))).
Proof.
  unfold User.username_setter.
  destruct (negb (check_length h 64) || negb (Re.match_ USERNAME_REGEX h)); auto.
Qed.

Lemma username_setter_ok_iff (h : str) (u : User.t) :
  User.username_setter h u = (User.set__username (Some h) u, Ok tt) <->
  Z.of_nat (length h) <= 64 /\
  exists a, a <> [] /\ no_whitespace a /\ (h = a \/ h = a ++ [10%N]).
Proof.
  rewrite <- USERNAME_REGEX_spec. unfold User.username_setter.
  destruct (check_length h 64) eqn:Hl; destruct (Re.match_ USERNAME_REGEX h) eqn:Hm;
    simpl; unfold raise, modify.
  - apply check_length_spec in Hl. tauto.
  - split; [discriminate | intros [_ H]; discriminate].
  - split; [discriminate|]. intros [Hlen _].
    apply USERNAME_REGEX_spec in Hm as (a & Hne & _ & Hs).
    assert (check_length h 64 = true); [|congruence].
    apply check_length_spec. split; [|exact Hlen].
    destruct Hs as [-> | ->]; destruct a; simpl; congruence.
  - split; [discriminate | intros [_ H]; discriminate].
Qed.

(** Every handle that is non-empty, of at most 64 characters and free of
    whitespace is stored, and is what the getter then returns. *)
Lemma username_setter_valid (h : str) (u : User.t) :
  valid_handle h ->
  User.username_setter h u = (User.set__username (Some h) u, Ok tt)
  /\ User.username (fst (User.username_setter h u)) = Some h.
Proof.
  intros (Hne & Hlen & Hws).
  assert (H : User.username_setter h u = (User.set__username (Some h) u, Ok tt)).
  { apply username_setter_ok_iff. split; [exact Hlen|]. exists h. auto. }
  rewrite H. auto.
Qed.

(** A handle of more than 64 characters, or with a whitespace character
    anywhere but in a final newline, is refused and nothing is stored. *)
Lemma username_setter_invalid (h : str) (u : User.t) :
  64 < Z.of_nat (length h)
  \/ (exists a c b, h = a ++ c :: b /\ isspace c = true /\ (b <> [] \/ c <> 10%N)) ->
  User.username_setter h u
  = (u, Raise (ValueError (h ++ lit " is not a valid username"))).
Proof.
  intros Hbad.
  destruct (username_setter_cases h u) as [Hok | Herr]; [|exact Herr].
  exfalso. apply username_setter_ok_iff in Hok as (Hlen & a & Hne & Hws & Hs).
  destruct Hbad as [Hlong | (x & c & y & Heq & Hc & Hpos)]; [lia|].
  assert (Hin : forall d, In d h -> isspace d = true -> h = a ++ [d] /\ d = 10%N).
  { intros d Hd Hsp. unfold no_whitespace in Hws. rewrite List.Forall_forall in Hws.
    destruct Hs as [-> | ->].
    - specialize (Hws d Hd). congruence.
    - apply in_app_or in Hd as [Hd | [<- | []]]; [|auto].
      specialize (Hws d Hd). congruence. }
  destruct (Hin c) as [Hh Hc10]; [rewrite Heq; apply in_or_app; right; left; reflexivity | exact Hc |].
  destruct Hpos as [Hb | Hc']; [|congruence].
  subst c. destruct Hs as [Hs | Hs].
  - unfold no_whitespace in Hws. rewrite List.Forall_forall in Hws.
    assert (isspace 10%N = false); [|discriminate].
    apply Hws. rewrite <- Hs, Heq. apply in_or_app; right; left; reflexivity.
  - rewrite Heq in Hs.
    destruct (exists_last Hb) as (b' & z & ->).
    rewrite app_comm_cons, app_assoc in Hs.
    apply app_inj_tail in Hs as [Ha _].
    unfold no_whitespace in Hws. rewrite List.Forall_forall in Hws.
    assert (isspace 10%N = false); [|discriminate].
    apply Hws. rewrite <- Ha. apply in_or_app; right; left; reflexivity.
Qed.

(** C2. The username setter lets one whitespace character through: a
    handle that ends in a newline, such as "abc" followed by U+000A,
    contains whitespace, so it is no valid handle, and is nevertheless
    stored and read back. *)
Theorem username_setter_final_newline (u : User.t) :
  let h := lit "abc" ++ [10%N] in
  existsb isspace h = true
  /\ ~ valid_handle h
  /\ User.username_setter h u = (User.set__username (Some h) u, Ok tt)
  /\ User.username (fst (User.username_setter h u)) = Some h.
Proof.
  cbv zeta. split; [reflexivity|]. split; [|split; reflexivity].
  intros (_ & _ & Hws). unfold no_whitespace in Hws.
  rewrite List.Forall_forall in Hws.
  specialize (Hws 10%N). simpl in Hws. discriminate Hws. tauto.
Qed.

Lemma email_setter_cases (v : str) (u : User.t) :
  User.email_setter v u = (User.set__email (Some v) u, Ok tt)
  \/ User.email_setter v u
     = (u, Raise (ValueError (v ++ lit " is not a valid email address"))).
Proof.
  unfold User.email_setter.
  destruct (negb (check_length v 64) || negb (Re.match_ EMAIL_REGEX v)); auto.
Qed.

(** The address is stored exactly when it has at most 64 characters and
    EMAIL_REGEX matches it; otherwise the setter raises. *)
Lemma email_setter_ok_iff (v : str) (u : User.t) :
  User.email_setter v u = (User.set__email (Some v) u, Ok tt) <->
  Z.of_nat (length v) <= 64 /\
  exists a b c,
    a <> [] /\ b <> [] /\ c <> [] /\
    no_whitespace a /\ no_whitespace b /\ no_whitespace c /\
    (v = a ++ 64%N :: b ++ 46%N :: c \/ v = (a ++ 64%N :: b ++ 46%N :: c) ++ [10%N]).
Proof.
  rewrite <- EMAIL_REGEX_spec. unfold User.email_setter.
  destruct (check_length v 64) eqn:Hl; destruct (Re.match_ EMAIL_REGEX v) eqn:Hm;
    simpl; unfold raise, modify.
  - apply check_length_spec in Hl. tauto.
  - split; [discriminate | intros [_ H]; discriminate].
  - split; [discriminate|]. intros [Hlen _].
    assert (check_length v 64 = true); [|congruence].
    apply check_length_spec. split; [|exact Hlen].
    apply EMAIL_REGEX_spec in Hm as (a & b & c & Hne & _ & _ & _ & _ & _ & Hs).
    destruct Hs as [-> | ->]; destruct a; simpl; congruence.
  - split; [discriminate | intros [_ H]; discriminate].
Qed.

(** Every address of the expected shape and of at most 64 characters is
    stored. *)
Lemma email_setter_valid (v : str) (u : User.t) :
  email_shaped v -> Z.of_nat (length v) <= 64 ->
  User.email_setter v u = (User.set__email (Some v) u, Ok tt).
Proof.
  intros (a & b & c & Ha & Hb & Hc & Hwa & Hwb & Hwc & ->) Hlen.
  apply email_setter_ok_iff. split; [exact Hlen|].
  exists a, b, c. auto 10.
Qed.

(** C7. The email setter accepts an address that does not have the shape
    non-space, at sign, non-space, dot, non-space: "a@b.c" followed by a
    newline ends in a whitespace character and is stored as it is. *)
Theorem email_setter_final_newline (u : User.t) :
  let v := lit "a@b.c" ++ [10%N] in
  existsb isspace v = true
  /\ ~ email_shaped v
  /\ User.email_setter v u = (User.set__email (Some v) u, Ok tt)
  /\ User.email (fst (User.email_setter v u)) = Some v.
Proof.
  cbv zeta. split; [reflexivity|]. split; [|split; reflexivity].
  intros (a & b & c & _ & _ & Hnc & _ & _ & Hc & Hv).
  destruct (exists_last Hnc) as (c' & z & ->).
  change (46%N :: c' ++ [z]) with ((46%N :: c') ++ [z]) in Hv.
  rewrite app_assoc in Hv.
  change (64%N :: (b ++ 46%N :: c') ++ [z])
    with ((64%N :: b ++ 46%N :: c') ++ [z]) in Hv.
  rewrite app_assoc in Hv. apply app_inj_tail in Hv as [_ <-].
  unfold no_whitespace in Hc. rewrite List.Forall_forall in Hc.
  specialize (Hc 10%N). rewrite in_app_iff in Hc. simpl in Hc.
  discriminate Hc. tauto.
Qed.

(** ** User: the password *)


Lemma plain_scheme_check (salt p q : str) :
  @check_password_hash plain_scheme (@generate_password_hash plain_scheme salt p) q
  = str_eqb p q.
Proof. simpl. now rewrite Nat2N.id, drop_app_length. Qed.

(** C6. Reading [password] raises AttributeError for every account,
    whatever was written to it before. *)
Theorem password_not_readable (u : User.t) :
  User.password u
  = Raise (AttributeError (lit "password is not a readable attribute"))
  /\ forall (W : Werkzeug) (salt p : str),
       User.password (fst (User.password_setter salt p u))
       = Raise (AttributeError (lit "password is not a readable attribute")).
Proof. split; reflexivity. Qed.

(** C10. On an account whose [password_hash] is unset, [verify_password]
    raises (the AttributeError of the call on None) for every plaintext:
    it does not answer False. *)
Theorem verify_password_unset (W : Werkzeug) (u : User.t) (p : str) :
  User.password_hash u = None ->
  User.verify_password u p
  = Raise (AttributeError (lit "'NoneType' object has no attribute 'split'"))
  /\ User.verify_password u p <> Ok false.
Proof.
  intros H. unfold User.verify_password. rewrite H. simpl. split; [reflexivity | discriminate].
Qed.

Lemma verify_password_unset_witness :
  User.password_hash User.new = None
  /\ @User.verify_password plain_scheme User.new (lit "secret")
     = Raise (AttributeError (lit "'NoneType' object has no attribute 'split'")).
Proof.
  split; [reflexivity|].
  apply (verify_password_unset plain_scheme User.new (lit "secret")). reflexivity.
Defined.

(** ** TodoList: the title *)

Lemma title_setter_cases (v : str) (l : TodoList.t) :
  TodoList.title_setter v l
  = if check_length v 128
    then (TodoList.set__title (Some v) l, Ok tt)
    else (l, Raise (ValueError (v ++ lit " is not a valid title"))).
Proof. unfold TodoList.title_setter. now destruct (check_length v 128). Qed.

(** The constructor in terms of the title that reaches the setter. *)
Lemma TodoList_init_unfold title creator created_at now :
  TodoList.__init__ title creator created_at now
  = let v := str_or title (lit "untitled") in
    if check_length v 128
    then Ok (TodoList.mk None (Some v) (Some (datetime_or created_at now)) creator)
    else Raise (ValueError (v ++ lit " is not a valid title")).
Proof.
  unfold TodoList.__init__, bind. rewrite title_setter_cases.
  now destruct (check_length (str_or title (lit "untitled")) 128).
Qed.

(** C4. Without a title the list is titled "untitled"; a title of 129
    characters makes the constructor raise a ValueError. *)
Theorem TodoList_init_title (creator : option str) (created_at : option datetime)
    (now : datetime) :
  TodoList.__init__ None creator created_at now
  = Ok (TodoList.mk None (Some (lit "untitled"))
          (Some (datetime_or created_at now)) creator)
  /\ forall t : str,
       length t = 129%nat ->
       TodoList.__init__ (Some t) creator created_at now
       = Raise (ValueError (t ++ lit " is not a valid title")).
Proof.
  split; [reflexivity|].
  intros t Ht. rewrite TodoList_init_unfold.
  destruct t as [|c t]; [discriminate|]. cbn [str_or].
  cbv zeta. unfold check_length. rewrite Ht. reflexivity.
Qed.

Lemma TodoList_init_title_witness :
  length (repeat 97%N 129) = 129%nat
  /\ TodoList.__init__ (Some (repeat 97%N 129)) None None 0
     = Raise (ValueError (repeat 97%N 129 ++ lit " is not a valid title")).
Proof.
  split; [reflexivity|].
  apply (proj2 (TodoList_init_title None None 0)). reflexivity.
Defined.

(** C9. The constructor turns an empty title into "untitled" where the
    setter, given the empty string, raises; so a constructed list always
    has a non-empty title. *)
Theorem TodoList_init_empty_title (creator : option str)
    (created_at : option datetime) (now : datetime) :
  TodoList.__init__ (Some []) creator created_at now
  = Ok (TodoList.mk None (Some (lit "untitled"))
          (Some (datetime_or created_at now)) creator)
  /\ (forall l : TodoList.t,
        TodoList.title_setter [] l
        = (l, Raise (ValueError (lit " is not a valid title"))))
  /\ (forall (title : option str) (l : TodoList.t),
        TodoList.__init__ title creator created_at now = Ok l ->
        exists t, TodoList.title l = Some t /\ t <> []).
Proof.
  split; [reflexivity|]. split; [reflexivity|].
  intros title l. rewrite TodoList_init_unfold. cbv zeta.
  destruct (check_length _ 128) eqn:Hl; [|discriminate].
  intros [= <-]. apply check_length_spec in Hl as [Hne _].
  eexists. split; [reflexivity | exact Hne].
Qed.

Lemma TodoList_init_empty_title_witness :
  exists t, TodoList.title
              (TodoList.mk None (Some (lit "shopping")) (Some 7) (Some (lit "ann")))
            = Some t /\ t <> [].
Proof.
  apply (proj2 (proj2 (TodoList_init_empty_title (Some (lit "ann")) (Some 7) 0))
           (Some (lit "shopping"))).
  reflexivity.
Defined.

(** ** Todolist: the finished flag and its timestamp *)


Section ItemInvariant.

Context {S : Type} `{!Session S} `{!Mapped S Todolist.t}.

Lemma finished_object (now : datetime) (i : Todolist.t) (s : S) :
  fst (fst (Todolist.finished now (i, s)))
  = Todolist.set_finished_at (Some now) (Todolist.set_is_finished (Some true) i).
Proof. unfold Todolist.finished. now destruct (BaseModel.save _ s). Qed.

Lemma reopen_object (i : Todolist.t) (s : S) :
  fst (fst (Todolist.reopen (i, s)))
  = Todolist.set_finished_at None (Todolist.set_is_finished (Some false) i).
Proof. unfold Todolist.reopen. now destruct (BaseModel.save _ s). Qed.

Lemma item_step_consistent (op : item_op) (st : Todolist.t * S) :
  consistent (fst st) = true -> consistent (fst (fst (item_step op st))) = true.
Proof.
  destruct st as [i s]. intros Hi. simpl in Hi.
  destruct op; unfold item_step.
  - rewrite finished_object. reflexivity.
  - rewrite reopen_object. reflexivity.
  - now destruct (BaseModel.save i s).
  - now destruct (BaseModel.delete i s).
Qed.

Lemma item_run_consistent (ops : list item_op) (st : Todolist.t * S) :
  consistent (fst st) = true -> consistent (fst (item_run ops st)) = true.
Proof.
  revert st. induction ops as [|op ops IH]; intros st Hst; [exact Hst|].
  simpl. apply IH. now apply item_step_consistent.
Qed.

(** C3. A new item is open with [finished_at] None; [finished] sets the
    flag and stamps the time, [reopen] clears both; and after any run of
    [finished], [reopen], [save] and [delete] on a new item, finished
    implies [finished_at] set and open implies [finished_at] None. *)
Theorem item_flag_consistent (description : str) (Todolist_id : Z)
    (creator : option str) (created_at : option datetime) (now : datetime)
    (s : S) (ops : list item_op) :
  let i0 := Todolist.__init__ description Todolist_id creator created_at now in
  (truthy (Todolist.is_finished i0) = false
   /\ Todolist.finished_at i0 = None
   /\ Todolist.status i0 = lit "open")
  /\ consistent (fst (item_run ops (i0, s))) = true
  /\ (forall (i : Todolist.t) (s' : S) (t : datetime),
        let i' := fst (fst (Todolist.finished t (i, s'))) in
        Todolist.is_finished i' = Some true /\ Todolist.finished_at i' = Some t)
  /\ (forall (i : Todolist.t) (s' : S),
        let i' := fst (fst (Todolist.reopen (i, s'))) in
        Todolist.is_finished i' = Some false /\ Todolist.finished_at i' = None).
Proof.
  cbv zeta. split; [repeat split|]. split; [now apply item_run_consistent|].
  split.
  - intros i s' t. rewrite finished_object. split; reflexivity.
  - intros i s'. rewrite reopen_object. split; reflexivity.
Qed.

End ItemInvariant.

(** ** BaseModel: save and delete *)

Section Facade.

Context {S E : Type} `{!Session S} `{!Mapped S E}.

Lemma commit_cases (s : S) :
  BaseModel.__commit s
  = match session_commit s with
    | (s1, Raise IntegrityError) => (session_rollback s1, Ok tt)
    | r => r
    end.
Proof. reflexivity. Qed.

Lemma commit_not_integrity (s : S) :
  snd (BaseModel.__commit s) <> Raise IntegrityError.
Proof.
  rewrite commit_cases. destruct (session_commit s) as [s1 [[]|[]]]; simpl; discriminate.
Qed.

Lemma save_unfold (self : E) (s : S) :
  BaseModel.save self s
  = match BaseModel.__commit (session_add self s) with
    | (s1, Ok _) => (s1, Ok self)
    | (s1, Raise e) => (s1, Raise e)
    end.
Proof.
  unfold BaseModel.save, bind, modify, ret.
  now destruct (BaseModel.__commit (session_add self s)) as [s1 [[]|e]].
Qed.

(** C1. Neither [save] nor [delete] ever raises IntegrityError. When
    the commit raises it, the session is rolled back and the call
    returns as it does after a successful commit: [save] returns the
    object, [delete] returns None. *)
Theorem save_delete_swallow_integrity (self : E) (s : S) :
  snd (BaseModel.save self s) <> Raise IntegrityError
  /\ snd (BaseModel.delete self s) <> Raise IntegrityError
  /\ (forall s1, session_commit (session_add self s) = (s1, Raise IntegrityError) ->
        BaseModel.save self s = (session_rollback s1, Ok self))
  /\ (forall s1, session_commit (session_add self s) = (s1, Ok tt) ->
        BaseModel.save self s = (s1, Ok self))
  /\ (forall s0 s1, session_delete self s = Some s0 ->
        session_commit s0 = (s1, Raise IntegrityError) ->
        BaseModel.delete self s = (session_rollback s1, Ok tt))
  /\ (forall s0 s1, session_delete self s = Some s0 ->
        session_commit s0 = (s1, Ok tt) ->
        BaseModel.delete self s = (s1, Ok tt)).
Proof.
  repeat split.
  - rewrite save_unfold.
    pose proof (commit_not_integrity (session_add self s)) as H.
    destruct (BaseModel.__commit (session_add self s)) as [s1 [[]|e]];
      simpl in *; [discriminate | intros [= ->]; now apply H].
  - unfold BaseModel.delete. destruct (session_delete self s) as [s0|].
    + apply commit_not_integrity.
    + simpl. discriminate.
  - intros s1 H. now rewrite save_unfold, commit_cases, H.
  - intros s1 H. now rewrite save_unfold, commit_cases, H.
  - intros s0 s1 H0 H1. unfold BaseModel.delete. now rewrite H0, commit_cases, H1.
  - intros s0 s1 H0 H1. unfold BaseModel.delete. now rewrite H0, commit_cases, H1.
Qed.

End Facade.


(** Saving a second account with a taken handle: the commit raises
    IntegrityError, [save] returns the object all the same, and the
    committed table still holds the one row. *)
Lemma save_delete_swallow_integrity_witness :
  session_commit (session_add Scenario.ann Scenario.db_ann)
  = (session_add Scenario.ann Scenario.db_ann, Raise IntegrityError)
  /\ BaseModel.save Scenario.ann Scenario.db_ann
     = (session_rollback (session_add Scenario.ann Scenario.db_ann), Ok Scenario.ann)
  /\ length (MemDb.rows (MemDb.users (MemDb.committed
               (fst (BaseModel.save Scenario.ann Scenario.db_ann))))) = 1%nat.
Proof.
  split; [reflexivity|]. split; [|reflexivity].
  apply (proj1 (proj2 (proj2
           (save_delete_swallow_integrity Scenario.ann Scenario.db_ann)))).
  reflexivity.
Defined.

(** ** TodoList: the counts *)

Lemma filter_bool_prop {A : Type} (f : A -> bool) (P : A -> Prop)
    `{!forall x, Decision (P x)} (l : list A) :
  (forall x, f x = true <-> P x) -> List.filter f l = filter P l.
Proof.
  intros Hf. induction l as [|x l IH]; [reflexivity|].
  simpl. rewrite filter_cons, IH.
  destruct (f x) eqn:E; destruct (decide (P x)) as [HP | HP]; try reflexivity.
  - exfalso. apply HP, Hf, E.
  - apply Hf in HP. congruence.
Qed.

Lemma filter_flag_split (q : list Todolist.t) :
  Forall (fun i => Todolist.is_finished i <> None) q ->
  length q
  = (length (List.filter
       (fun i => match Todolist.is_finished i with
                 | Some b' => Bool.eqb b' false | None => false end) q)
     + length (List.filter
       (fun i => match Todolist.is_finished i with
                 | Some b' => Bool.eqb b' true | None => false end) q))%nat.
Proof.
  induction 1 as [|i q Hi _ IH]; [reflexivity|].
  simpl. destruct (Todolist.is_finished i) as [[|]|]; simpl; [lia | lia | congruence].
Qed.

Section Counts.

Context {S : Type} `{!Mapped S TodoList.t} `{!Mapped S Todolist.t}.

Lemma todos_owned (l : TodoList.t) (s : S) : TodoList.todos l s = owned l s.
Proof.
  unfold TodoList.todos, owned. apply filter_bool_prop. intros i.
  destruct (TodoList.id l) as [k|]; [|split; discriminate].
  rewrite Z.eqb_eq. split; [intros ->; reflexivity | intros [= ->]; reflexivity].
Qed.

Lemma filter_by_flag (b : bool) (q : list Todolist.t) :
  TodoList.filter_by_is_finished b q
  = filter (fun i => Todolist.is_finished i = Some b) q.
Proof.
  unfold TodoList.filter_by_is_finished. apply filter_bool_prop. intros i.
  destruct (Todolist.is_finished i) as [b'|]; [|split; discriminate].
  rewrite Bool.eqb_true_iff. split; [intros ->; reflexivity | intros [= ->]; reflexivity].
Qed.

(** On a list that is not bound each of the three counts raises. *)
Lemma counts_unbound (l : TodoList.t) (s : S) :
  TodoList.bound l s = false ->
  TodoList.todo_count l s = Raise DetachedInstanceError
  /\ TodoList.finished_count l s = Raise DetachedInstanceError
  /\ TodoList.open_count l s = Raise DetachedInstanceError.
Proof.
  intros Hb.
  unfold TodoList.todo_count, TodoList.finished_count, TodoList.open_count,
    TodoList.derived.
  now rewrite Hb.
Qed.

Lemma counts_bound (l : TodoList.t) (s : S) :
  TodoList.bound l s = true ->
  TodoList.todo_count l s = Ok (Z.of_nat (length (owned l s)))
  /\ TodoList.finished_count l s
     = Ok (Z.of_nat (length (filter (fun i => Todolist.is_finished i = Some true)
                               (owned l s))))
  /\ TodoList.open_count l s
     = Ok (Z.of_nat (length (filter (fun i => Todolist.is_finished i = Some false)
                               (owned l s)))).
Proof.
  intros Hb.
  unfold TodoList.todo_count, TodoList.finished_count, TodoList.open_count,
    TodoList.derived, TodoList.count.
  now rewrite Hb, !filter_by_flag, todos_owned.
Qed.

Lemma owned_add_up (l : TodoList.t) (s : S) :
  Forall (fun i => Todolist.is_finished i <> None) (owned l s) ->
  length (owned l s)
  = (length (filter (fun i => Todolist.is_finished i = Some false) (owned l s))
     + length (filter (fun i => Todolist.is_finished i = Some true) (owned l s)))%nat.
Proof.
  intros Hf. rewrite <- !filter_by_flag. apply filter_flag_split. exact Hf.
Qed.

(** C8, as the code has it. For every list that is bound to the session
    each count is a query on the current session: the number of owned
    items, of owned items with the flag True, and with the flag False;
    they add up when no owned flag is NULL, and with three owned items of
    which one is finished and the others open they are 3, 1 and 2. *)
Theorem TodoList_counts_bound (l : TodoList.t) (s : S) :
  TodoList.bound l s = true ->
  TodoList.todo_count l s = Ok (Z.of_nat (length (owned l s)))
  /\ TodoList.finished_count l s
     = Ok (Z.of_nat (length (filter (fun i => Todolist.is_finished i = Some true)
                               (owned l s))))
  /\ TodoList.open_count l s
     = Ok (Z.of_nat (length (filter (fun i => Todolist.is_finished i = Some false)
                               (owned l s))))
  /\ (Forall (fun i => Todolist.is_finished i <> None) (owned l s) ->
      exists total opened finished,
        TodoList.todo_count l s = Ok total
        /\ TodoList.open_count l s = Ok opened
        /\ TodoList.finished_count l s = Ok finished
        /\ total = opened + finished)
  /\ (Forall (fun i => Todolist.is_finished i <> None) (owned l s) ->
      length (owned l s) = 3%nat ->
      length (filter (fun i => Todolist.is_finished i = Some true) (owned l s)) = 1%nat ->
      TodoList.todo_count l s = Ok 3
      /\ TodoList.finished_count l s = Ok 1
      /\ TodoList.open_count l s = Ok 2).
Proof.
  intros Hb. destruct (counts_bound l s Hb) as (Ht & Hf & Ho).
  repeat (split; [assumption|]). split.
  - intros Hn. pose proof (owned_add_up l s Hn) as Hsum.
    do 3 eexists. repeat (split; [eassumption|]). lia.
  - intros Hn H3 H1. pose proof (owned_add_up l s Hn) as Hsum.
    rewrite Ht, Hf, Ho. repeat split; f_equal; lia.
Qed.

End Counts.

(** The list [shop] with its three items, one of them finished. *)
Lemma TodoList_counts_bound_witness :
  TodoList.todo_count Scenario.shop Scenario.shop_db = Ok 3
  /\ TodoList.finished_count Scenario.shop Scenario.shop_db = Ok 1
  /\ TodoList.open_count Scenario.shop Scenario.shop_db = Ok 2.
Proof.
  assert (Hb : TodoList.bound Scenario.shop Scenario.shop_db = true) by reflexivity.
  destruct (TodoList_counts_bound Scenario.shop Scenario.shop_db Hb)
    as (_ & _ & _ & _ & H).
  apply H.
  - vm_compute. repeat constructor; discriminate.
  - reflexivity.
  - reflexivity.
Defined.

(** C8 fails on a list that was constructed and not saved: it owns no
    item, and none of its counts is 0; each raises. *)
Lemma TodoList_counts_unsaved :
  TodoList.__init__ None None None 0 = Ok Scenario.unsaved
  /\ owned Scenario.unsaved (MemDb.empty 0) = []
  /\ TodoList.todo_count Scenario.unsaved (MemDb.empty 0)
     = Raise DetachedInstanceError
  /\ TodoList.finished_count Scenario.unsaved (MemDb.empty 0)
     = Raise DetachedInstanceError
  /\ TodoList.open_count Scenario.unsaved (MemDb.empty 0)
     = Raise DetachedInstanceError
  /\ TodoList.todo_count Scenario.unsaved (MemDb.empty 0)
     <> Ok (Z.of_nat (length (owned Scenario.unsaved (MemDb.empty 0)))).
Proof. repeat split; discriminate. Qed.

(** The counts of a list read the session at each call: saved through
    the model layer, a list with three items counts 3, 0 and 3, after one
    [finished] 3, 1 and 2, after a second one 3, 2 and 1. *)
Lemma counts_follow_the_session :
  Scenario.counts 1 Scenario.db4 = Some (Ok 3, Ok 0, Ok 3)
  /\ Scenario.counts 1 Scenario.db5 = Some (Ok 3, Ok 1, Ok 2)
  /\ Scenario.counts 1 Scenario.db6 = Some (Ok 3, Ok 2, Ok 1).
Proof. repeat split. Qed.

(** * Further properties *)

(** ** check_length and the two patterns *)

(** [check_length] on a value of any of these types: True exactly for
    the values that have a length (str, bytes, list, tuple, set, dict),
    are not empty and are within the limit, so also for a value that is
    no string; False for None, a number, a boolean and a datetime, whose
    TypeError the bare except swallows. On a string it is the function
    that the setters use. *)
Theorem check_length_any_accepts (v : value) (n : Z) :
  (check_length_any v n = true <-> exists k, len v = Some k /\ 0 < k <= n)
  /\ (len v = None -> check_length_any v n = false)
  /\ (forall s, check_length_any (VStr s) n = check_length s n)
  /\ (forall x, 1 <= n -> check_length_any (VList [x]) n = true).
Proof.
  assert (Hsized : forall m : nat,
            match (if 0 <? Z.of_nat m then Some (Z.of_nat m <=? n) else Some false) with
            | Some b => b
            | None => false
            end = true
            <-> exists k, Some (Z.of_nat m) = Some k /\ 0 < k <= n).
  { intros m. destruct (0 <? Z.of_nat m) eqn:Hpos.
    - apply Z.ltb_lt in Hpos. rewrite Z.leb_le. split.
      + intros Hle. exists (Z.of_nat m). split; [reflexivity | lia].
      + intros (k & [= <-] & Hk). lia.
    - apply Z.ltb_ge in Hpos. split; [discriminate|].
      intros (k & [= <-] & Hk). lia. }
  assert (Hnone : forall b : bool,
            match (if b then @None bool else Some false) with
            | Some b' => b'
            | None => false
            end = true
            <-> exists k : Z, @None Z = Some k /\ 0 < k <= n).
  { intros b. split; [now destruct b | intros (k & Hk & _); discriminate]. }
  split; [|split; [|split]].
  - unfold check_length_any.
    destruct v as [|b|k|s|d|b|l|l|l|d]; cbn [truth len];
      first [apply Hsized | apply Hnone | apply (Hnone false)].
  - unfold check_length_any. destruct v as [|b|k|s|d|b|l|l|l|d]; cbn [truth len];
      try discriminate; intros _; try reflexivity.
    + now destruct b.
    + now destruct (negb (k =? 0)).
  - intros [|c s]; [reflexivity|].
    unfold check_length_any, check_length. cbn [truth len].
    replace (0 <? Z.of_nat (length (c :: s))) with true; [reflexivity|].
    symmetry. apply Z.ltb_lt. simpl. lia.
  - intros x Hn. unfold check_length_any. cbn. apply Z.leb_le. lia.
Qed.

(** The language of USERNAME_REGEX: the non-empty strings without
    whitespace, and those followed by one newline. *)
Theorem USERNAME_REGEX_language (h : str) :
  Re.match_ USERNAME_REGEX h = true <->
  (h <> [] /\ no_whitespace h)
  \/ exists w, w <> [] /\ no_whitespace w /\ h = w ++ [10%N].
Proof.
  rewrite USERNAME_REGEX_spec. split.
  - intros (a & Hne & Hws & [-> | ->]); [left; auto | right; exists a; auto].
  - intros [[Hne Hws] | (w & Hne & Hws & ->)]; [exists h; auto | exists w; auto].
Qed.

Lemma email_shapes_iff (v : str) :
  (exists a b c,
     a <> [] /\ b <> [] /\ c <> [] /\
     no_whitespace a /\ no_whitespace b /\ no_whitespace c /\
     (v = a ++ 64%N :: b ++ 46%N :: c \/ v = (a ++ 64%N :: b ++ 46%N :: c) ++ [10%N]))
  <-> email_shaped v \/ exists w, email_shaped w /\ v = w ++ [10%N].
Proof.
  unfold email_shaped. split.
  - intros (a & b & c & Ha & Hb & Hc & Hwa & Hwb & Hwc & [-> | ->]).
    + left. exists a, b, c. auto 10.
    + right. eexists. split; [|reflexivity]. exists a, b, c. auto 10.
  - intros [(a & b & c & Ha & Hb & Hc & Hwa & Hwb & Hwc & ->)
           | (w & (a & b & c & Ha & Hb & Hc & Hwa & Hwb & Hwc & ->) & ->)];
      exists a, b, c; auto 10.
Qed.

(** The language of EMAIL_REGEX: the addresses of the shape non-space,
    at sign, non-space, dot, non-space, and those followed by one
    newline. *)
Theorem EMAIL_REGEX_language (v : str) :
  Re.match_ EMAIL_REGEX v = true <->
  email_shaped v \/ exists w, email_shaped w /\ v = w ++ [10%N].
Proof.
  rewrite EMAIL_REGEX_spec. apply email_shapes_iff.
Qed.

Lemma accepted_handle_iff (h : str) :
  accepted_handle h <->
  Z.of_nat (length h) <= 64 /\
  exists a, a <> [] /\ no_whitespace a /\ (h = a \/ h = a ++ [10%N]).
Proof.
  unfold accepted_handle. split; intros [Hlen H]; (split; [exact Hlen|]).
  - destruct H as [[Hne Hws] | (w & Hne & Hws & ->)]; [exists h; auto | exists w; auto].
  - destruct H as (a & Hne & Hws & [-> | ->]); [left; auto | right; exists a; auto].
Qed.

Lemma accepted_address_iff (v : str) :
  accepted_address v <->
  Z.of_nat (length v) <= 64 /\
  exists a b c,
    a <> [] /\ b <> [] /\ c <> [] /\
    no_whitespace a /\ no_whitespace b /\ no_whitespace c /\
    (v = a ++ 64%N :: b ++ 46%N :: c \/ v = (a ++ 64%N :: b ++ 46%N :: c) ++ [10%N]).
Proof.
  unfold accepted_address. now rewrite <- email_shapes_iff.
Qed.

(** ** User: what the setters store *)

Lemma username_setter_stores_iff (h : str) (u : User.t) :
  User.username_setter h u = (User.set__username (Some h) u, Ok tt)
  <-> accepted_handle h.
Proof. now rewrite accepted_handle_iff, <- (username_setter_ok_iff h u). Qed.

Lemma email_setter_stores_iff (v : str) (u : User.t) :
  User.email_setter v u = (User.set__email (Some v) u, Ok tt)
  <-> accepted_address v.
Proof. now rewrite accepted_address_iff, <- (email_setter_ok_iff v u). Qed.

(** The username setter stores the value exactly when it is an accepted
    handle; in every other case it raises ValueError and the object is
    as before. *)
Theorem username_setter_outcome (h : str) (u : User.t) :
  (User.username_setter h u = (User.set__username (Some h) u, Ok tt)
   <-> accepted_handle h)
  /\ (User.username_setter h u
      = (u, Raise (ValueError (h ++ lit " is not a valid username")))
      <-> ~ accepted_handle h).
Proof.
  rewrite <- (username_setter_stores_iff h u).
  split; [reflexivity|].
  destruct (username_setter_cases h u) as [H | H]; rewrite H; split.
  - discriminate.
  - intros Hn. now contradiction Hn.
  - intros _. discriminate.
  - reflexivity.
Qed.

(** The email setter stores the value exactly when it is an accepted
    address; in every other case it raises ValueError and the object is
    as before. *)
Theorem email_setter_outcome (v : str) (u : User.t) :
  (User.email_setter v u = (User.set__email (Some v) u, Ok tt)
   <-> accepted_address v)
  /\ (User.email_setter v u
      = (u, Raise (ValueError (v ++ lit " is not a valid email address")))
      <-> ~ accepted_address v).
Proof.
  rewrite <- (email_setter_stores_iff v u).
  split; [reflexivity|].
  destruct (email_setter_cases v u) as [H | H]; rewrite H; split.
  - discriminate.
  - intros Hn. now contradiction Hn.
  - intros _. discriminate.
  - reflexivity.
Qed.

Lemma no_whitespace_app (a b : str) :
  no_whitespace a -> no_whitespace b -> no_whitespace (a ++ b).
Proof. unfold no_whitespace. intros Ha Hb. apply Forall_app. auto. Qed.

Lemma email_shaped_no_whitespace (v : str) :
  email_shaped v -> v <> [] /\ no_whitespace v.
Proof.
  intros (a & b & c & Ha & _ & _ & Hwa & Hwb & Hwc & ->). split.
  - destruct a; [congruence | discriminate].
  - apply no_whitespace_app; [exact Hwa|].
    apply List.Forall_cons; [reflexivity|].
    apply no_whitespace_app; [exact Hwb|].
    apply List.Forall_cons; [reflexivity | exact Hwc].
Qed.

(** Whatever the email setter stores, the username setter stores too:
    an address can serve as a handle. *)
Theorem accepted_address_is_handle (v : str) (u u' : User.t) :
  User.email_setter v u = (User.set__email (Some v) u, Ok tt) ->
  User.username_setter v u' = (User.set__username (Some v) u', Ok tt).
Proof.
  intros H. apply email_setter_stores_iff in H as [Hlen Hv].
  apply username_setter_stores_iff. split; [exact Hlen|].
  destruct Hv as [Hs | (w & Hs & ->)]; apply email_shaped_no_whitespace in Hs as [Hne Hws].
  - left. auto.
  - right. exists w. auto.
Qed.

Lemma accepted_address_is_handle_witness :
  User.username_setter (lit "ann@example.org") User.new
  = (User.set__username (Some (lit "ann@example.org")) User.new, Ok tt).
Proof.
  apply (accepted_address_is_handle (lit "ann@example.org") User.new User.new).
  reflexivity.
Defined.

(** ** BaseModel: what save returns *)

Section SaveOutcome.

Context {S E : Type} `{!Session S} `{!Mapped S E}.

Lemma save_outcome (self : E) (s : S) :
  snd (BaseModel.save self s) <> Raise IntegrityError
  /\ forall v, snd (BaseModel.save self s) = Ok v -> v = self.
Proof.
  rewrite save_unfold.
  pose proof (commit_not_integrity (session_add self s)) as Hc.
  destruct (BaseModel.__commit (session_add self s)) as [s1 [[]|e]]; simpl in *.
  - split; [discriminate | now intros v [= <-]].
  - split; [intros [= ->]; now apply Hc | discriminate].
Qed.

Lemma delete_outcome (self : E) (s : S) :
  snd (BaseModel.delete self s) <> Raise IntegrityError.
Proof.
  unfold BaseModel.delete. destruct (session_delete self s) as [s0|].
  - apply commit_not_integrity.
  - simpl. discriminate.
Qed.

End SaveOutcome.

(** ** User: the states that the methods reach *)

Section UserStates.

Context {S : Type} `{!Session S} `{!Mapped S User.t} `{!Werkzeug}.

(** What one operation can do to the object. *)
Lemma user_step_object (op : user_op) (u : User.t) (s : S) :
  let u' := fst (fst (user_step op (u, s))) in
  u' = u
  \/ (exists h, accepted_handle h /\ u' = User.set__username (Some h) u)
  \/ (exists v, accepted_address v /\ u' = User.set__email (Some v) u)
  \/ (exists salt p, p <> [] /\
        Z.of_nat (length (generate_password_hash salt p)) <= 256 /\
        u' = User.set_password_hash (Some (generate_password_hash salt p)) u)
  \/ (exists now, u' = User.set_last_seen (Some now) u)
  \/ u' = User.set_is_admin (Some true) u.
Proof.
  cbv zeta. destruct op as [v|v|salt p|now| | |]; unfold user_step.
  - unfold on_object. destruct (username_setter_cases v u) as [Hc | Hc]; rewrite Hc.
    + right; left. exists v. split; [now apply (username_setter_stores_iff v u) | reflexivity].
    + left. reflexivity.
  - unfold on_object. destruct (email_setter_cases v u) as [Hc | Hc]; rewrite Hc.
    + right; right; left. exists v.
      split; [now apply (email_setter_stores_iff v u) | reflexivity].
    + left. reflexivity.
  - unfold on_object, User.password_setter.
    destruct p as [|c p]; [left; reflexivity|].
    destruct (256 <? _) eqn:Hlt; [left; reflexivity|].
    right; right; right; left. exists salt, (c :: p).
    apply Z.ltb_ge in Hlt. split; [discriminate|]. split; [exact Hlt | reflexivity].
  - unfold drop_value, User.seen. destruct (BaseModel.save _ s).
    right; right; right; right; left. exists now. reflexivity.
  - unfold drop_value, User.promote_to_admin. destruct (BaseModel.save _ s).
    right; right; right; right; right. reflexivity.
  - unfold save_it. destruct (BaseModel.save u s). left. reflexivity.
  - unfold delete_it. destruct (BaseModel.delete u s). left. reflexivity.
Qed.

Lemma user_run_invariant (P : User.t -> Prop) :
  (forall op u s, P u -> P (fst (fst (user_step op (u, s))))) ->
  forall ops st, P (fst st) -> P (fst (user_run ops st)).
Proof.
  intros Hstep ops. induction ops as [|op ops IH]; intros [u s] Hu; [exact Hu|].
  simpl. apply IH. apply Hstep. exact Hu.
Qed.

(** The handle and the address of an account built from a new object
    by any run of its methods are unset or values that their setters
    accept: a refused assignment never leaves a trace. *)
Theorem user_run_validated (ops : list user_op) (s : S) :
  let u := fst (user_run ops (User.new, s)) in
  (User.username u = None \/ exists h, User.username u = Some h /\ accepted_handle h)
  /\ (User.email u = None \/ exists v, User.email u = Some v /\ accepted_address v).
Proof.
  cbv zeta.
  apply (user_run_invariant
           (fun u => (User.username u = None
                      \/ exists h, User.username u = Some h /\ accepted_handle h)
                     /\ (User.email u = None
                         \/ exists v, User.email u = Some v /\ accepted_address v)));
    [|split; left; reflexivity].
  intros op u s0 [Hu He].
  destruct (user_step_object op u s0)
    as [-> | [(h & Hh & ->) | [(v & Hv & ->) | [(salt & p & _ & _ & ->)
        | [(now & ->) | ->]]]]]; split; try assumption.
  - right. exists h. auto.
  - right. exists v. auto.
Qed.

(** The stored hash of an account is unset or the hash of a non-empty
    password, of at most 256 characters. *)
Theorem user_run_hash_bounded (ops : list user_op) (s : S) :
  let u := fst (user_run ops (User.new, s)) in
  User.password_hash u = None
  \/ exists salt p, p <> [] /\
       User.password_hash u = Some (generate_password_hash salt p) /\
       Z.of_nat (length (generate_password_hash salt p)) <= 256.
Proof.
  cbv zeta.
  apply (user_run_invariant
           (fun u => User.password_hash u = None
                     \/ exists salt p, p <> [] /\
                          User.password_hash u = Some (generate_password_hash salt p) /\
                          Z.of_nat (length (generate_password_hash salt p)) <= 256));
    [|left; reflexivity].
  intros op u s0 Hu.
  destruct (user_step_object op u s0)
    as [-> | [(h & Hh & ->) | [(v & Hv & ->) | [(salt & p & Hp & Hlen & ->)
        | [(now & ->) | ->]]]]]; try assumption.
  right. exists salt, p. auto.
Qed.

(** No method takes the admin flag away: once set, it stays set over
    every run of operations. *)
Theorem user_run_admin_kept (ops : list user_op) (u : User.t) (s : S) :
  User.is_admin u = Some true ->
  User.is_admin (fst (user_run ops (u, s))) = Some true.
Proof.
  intros Hadmin.
  apply (user_run_invariant (fun u => User.is_admin u = Some true)); [|exact Hadmin].
  intros op u0 s0 Hu.
  destruct (user_step_object op u0 s0)
    as [-> | [(h & Hh & ->) | [(v & Hv & ->) | [(salt & p & Hp & Hlen & ->)
        | [(now & ->) | ->]]]]]; auto.
Qed.

End UserStates.

Lemma user_run_admin_kept_witness :
  User.is_admin
    (fst (@user_run MemDb.t _ _ plain_scheme
            [UOpSeen 3; UOpUsername (lit "root"); UOpPassword (lit "s") (lit "pw"); UOpSave]
            (User.set_is_admin (Some true) User.new, MemDb.empty 0)))
  = Some true.
Proof.
  apply (@user_run_admin_kept MemDb.t _ _ plain_scheme). reflexivity.
Defined.

(** ** BaseModel: the other exceptions, and from_dict *)

Section OtherErrors.

Context {S E : Type} `{!Session S} `{!Mapped S E}.

(** Only IntegrityError is swallowed: any other exception of the commit
    reaches the caller of [save] and of [delete], and the session is left
    as the commit left it, without a rollback. *)
Theorem save_delete_pass_other_errors (self : E) (s s1 : S) (e : exn) :
  e <> IntegrityError ->
  (session_commit (session_add self s) = (s1, Raise e) ->
   BaseModel.save self s = (s1, Raise e))
  /\ (forall s0, session_delete self s = Some s0 ->
        session_commit s0 = (s1, Raise e) ->
        BaseModel.delete self s = (s1, Raise e)).
Proof.
  intros He. split.
  - intros Hc. rewrite save_unfold, commit_cases, Hc. now destruct e.
  - intros s0 Hd Hc. unfold BaseModel.delete. rewrite Hd, commit_cases, Hc.
    now destruct e.
Qed.

(** [from_dict] saves what the constructor builds; when the constructor
    raises, the exception goes through and the session is not touched.
    It never raises IntegrityError unless the constructor does. *)
Theorem from_dict_outcome {A : Type} (cls : A -> result E) (model_dict : A) (s : S) :
  (forall e, cls model_dict = Raise e ->
     BaseModel.from_dict cls model_dict s = (s, Raise e))
  /\ (forall self, cls model_dict = Ok self ->
        BaseModel.from_dict cls model_dict s = BaseModel.save self s
        /\ snd (BaseModel.from_dict cls model_dict s) <> Raise IntegrityError
        /\ forall v, snd (BaseModel.from_dict cls model_dict s) = Ok v -> v = self).
Proof.
  unfold BaseModel.from_dict. split.
  - intros e ->. reflexivity.
  - intros self ->. split; [reflexivity|]. apply save_outcome.
Qed.

End OtherErrors.

Lemma save_delete_pass_other_errors_witness :
  @BaseModel.save unit User.t down_session (down_mapped User.t) User.new tt
  = (tt, Raise OperationalError).
Proof.
  apply (@save_delete_pass_other_errors unit User.t down_session
           (down_mapped User.t) User.new tt tt OperationalError).
  - discriminate.
  - reflexivity.
Defined.

(** [TodoList.from_dict] with a title of more than 128 characters raises
    the ValueError of the title setter before anything is added to the
    session; with a title that the constructor takes it saves the list. *)
Lemma from_dict_TodoList_witness :
  BaseModel.from_dict (TodoList_cls 1)
    (Some (repeat 97%N 129), None, None) (MemDb.empty 0)
  = (MemDb.empty 0,
     Raise (ValueError (repeat 97%N 129 ++ lit " is not a valid title"))).
Proof.
  apply (proj1 (from_dict_outcome (TodoList_cls 1)
                  (Some (repeat 97%N 129), None, None) (MemDb.empty 0))).
  reflexivity.
Defined.

(** ** TodoList: the title over the life of a list *)

Section ListStates.

Context {S : Type} `{!Session S} `{!Mapped S TodoList.t}.

(** The title setter stores exactly the non-empty values of at most 128
    characters; in every other case it raises ValueError and the list is
    as before. *)
Theorem title_setter_outcome (v : str) (l : TodoList.t) :
  (TodoList.title_setter v l = (TodoList.set__title (Some v) l, Ok tt)
   <-> v <> [] /\ Z.of_nat (length v) <= 128)
  /\ (TodoList.title_setter v l
      = (l, Raise (ValueError (v ++ lit " is not a valid title")))
      <-> ~ (v <> [] /\ Z.of_nat (length v) <= 128)).
Proof.
  rewrite <- check_length_spec, title_setter_cases.
  destruct (check_length v 128); split; split;
    try discriminate; try reflexivity; try congruence.
Qed.

Lemma list_step_title (op : list_op) (l : TodoList.t) (s : S) :
  (exists t, TodoList.title l = Some t /\ t <> [] /\ Z.of_nat (length t) <= 128) ->
  exists t, TodoList.title (fst (fst (list_step op (l, s)))) = Some t
            /\ t <> [] /\ Z.of_nat (length t) <= 128.
Proof.
  intros Hl. destruct op as [v| |]; unfold list_step.
  - unfold on_object. rewrite title_setter_cases.
    destruct (check_length v 128) eqn:Hv; [|exact Hl].
    apply check_length_spec in Hv. exists v. simpl. tauto.
  - unfold save_it. now destruct (BaseModel.save l s).
  - unfold delete_it. now destruct (BaseModel.delete l s).
Qed.

(** A constructed list keeps a title of 1 to 128 characters through
    every run of title assignments, saves and deletes: a refused title
    leaves the previous one in place. *)
Theorem list_run_title_valid (title creator : option str)
    (created_at : option datetime) (now : datetime) (l : TodoList.t)
    (ops : list list_op) (s : S) :
  TodoList.__init__ title creator created_at now = Ok l ->
  exists t, TodoList.title (fst (list_run ops (l, s))) = Some t
            /\ t <> [] /\ Z.of_nat (length t) <= 128.
Proof.
  rewrite TodoList_init_unfold. cbv zeta.
  destruct (check_length _ 128) eqn:Hl; [|discriminate].
  intros [= <-]. apply check_length_spec in Hl.
  match goal with |- context [list_run ops (?l0, s)] =>
    assert (H0 : exists t, TodoList.title l0 = Some t /\ t <> []
                           /\ Z.of_nat (length t) <= 128)
      by (eexists; split; [reflexivity | exact Hl]);
    generalize dependent l0 end.
  revert s. induction ops as [|op ops IH]; intros s l0 H0; [exact H0|].
  simpl. destruct (list_step op (l0, s)) as [[l1 s1] r] eqn:E.
  apply IH. pose proof (list_step_title op l0 s H0) as H1.
  now rewrite E in H1.
Qed.

End ListStates.

Lemma list_run_title_valid_witness :
  exists t,
    TodoList.title
      (fst (list_run [LOpTitle []; LOpSave; LOpTitle (repeat 97%N 200)]
              (TodoList.mk None (Some (lit "untitled")) (Some 4) None, MemDb.empty 0)))
    = Some t /\ t <> [] /\ Z.of_nat (length t) <= 128.
Proof.
  apply (list_run_title_valid None None (Some 4) 9). reflexivity.
Defined.

(** ** Todolist: what a run of transitions leaves *)

Section ItemStates.

Context {S : Type} `{!Session S} `{!Mapped S Todolist.t}.

Lemma item_step_object (op : item_op) (i : Todolist.t) (s : S) :
  fst (fst (item_step op (i, s)))
  = match op with
    | OpFinished now =>
        Todolist.set_finished_at (Some now) (Todolist.set_is_finished (Some true) i)
    | OpReopen =>
        Todolist.set_finished_at None (Todolist.set_is_finished (Some false) i)
    | _ => i
    end.
Proof.
  destruct op; unfold item_step.
  - apply finished_object.
  - apply reopen_object.
  - now destruct (BaseModel.save i s).
  - now destruct (BaseModel.delete i s).
Qed.

Lemma item_run_kept (ops : list item_op) (i : Todolist.t) (s : S) :
  let i' := fst (item_run ops (i, s)) in
  Todolist.description i' = Todolist.description i
  /\ Todolist.creator i' = Todolist.creator i
  /\ Todolist.Todolist_id i' = Todolist.Todolist_id i.
Proof.
  cbv zeta. revert i s. induction ops as [|op ops IH]; intros i s; [repeat split|].
  simpl. destruct (item_step op (i, s)) as [[i1 s1] r] eqn:E.
  pose proof (item_step_object op i s) as Ho. rewrite E in Ho. simpl in Ho.
  simpl. destruct (IH i1 s1) as (H1 & H2 & H3).
  rewrite H1, H2, H3. subst i1. now destruct op.
Qed.

(** No method of an item writes its description, its creator or the key
    of its list: over every run of [finished], [reopen], [save] and
    [delete] they stay as they were. *)
Theorem item_run_frame (ops : list item_op) (i : Todolist.t) (s : S) :
  let i' := fst (item_run ops (i, s)) in
  Todolist.description i' = Todolist.description i
  /\ Todolist.creator i' = Todolist.creator i
  /\ Todolist.Todolist_id i' = Todolist.Todolist_id i.
Proof. exact (item_run_kept ops i s). Qed.

(** The projected mapping of a constructed item after any run: the
    description and the creator it was constructed with, a creation
    time, and a status that is either finished, and then the item has a
    finish time, or open, and then it has none. *)
Theorem item_to_dict_after_run (description : str) (Todolist_id : Z)
    (creator : option str) (created_at : option datetime) (now : datetime)
    (ops : list item_op) (s : S) :
  let i := fst (item_run ops
                  (Todolist.__init__ description Todolist_id creator created_at now, s)) in
  exists created status,
    TodolistViews.to_dict i
    = [ ("description"%string, VStr description);
        ("creator"%string, of_opt_str creator);
        ("created_at"%string, created);
        ("status"%string, VStr status) ]
    /\ ((status = lit "finished" /\ Todolist.finished_at i <> None)
        \/ (status = lit "open" /\ Todolist.finished_at i = None)).
Proof.
  cbv zeta.
  set (i0 := Todolist.__init__ description Todolist_id creator created_at now).
  destruct (item_run_kept ops i0 s) as (Hd & Hc & _).
  pose proof (item_run_consistent ops (i0, s) eq_refl) as Hk.
  unfold TodolistViews.to_dict, Todolist.status. rewrite Hd, Hc.
  do 2 eexists. split; [reflexivity|].
  unfold consistent in Hk.
  destruct (truthy (Todolist.is_finished (fst (item_run ops (i0, s)))));
    destruct (Todolist.finished_at (fst (item_run ops (i0, s))));
    try discriminate Hk; [left | right]; split; congruence.
Qed.

End ItemStates.

(** ** TodoList: how the counts relate *)

Lemma filter_flag_partition (q : list Todolist.t) :
  length q
  = (length (TodoList.filter_by_is_finished false q)
     + length (TodoList.filter_by_is_finished true q)
     + length (List.filter
                 (fun i => match Todolist.is_finished i with
                           | None => true | Some _ => false end) q))%nat.
Proof.
  unfold TodoList.filter_by_is_finished.
  induction q as [|i q IH]; [reflexivity|].
  simpl. destruct (Todolist.is_finished i) as [[|]|]; simpl; lia.
Qed.

(** On a list that is not bound the three counts raise
    DetachedInstanceError; on a bound list they return, and the total is
    the open count plus the finished count plus the number of owned items
    whose flag is NULL, so the open and the finished count never add up
    to more than the total, and no count is negative. *)
Theorem counts_partition {S : Type} `{!Mapped S TodoList.t} `{!Mapped S Todolist.t}
    (l : TodoList.t) (s : S) :
  (TodoList.bound l s = false /\
   TodoList.todo_count l s = Raise DetachedInstanceError /\
   TodoList.open_count l s = Raise DetachedInstanceError /\
   TodoList.finished_count l s = Raise DetachedInstanceError)
  \/ (TodoList.bound l s = true /\
      exists total opened finished,
        TodoList.todo_count l s = Ok total
        /\ TodoList.open_count l s = Ok opened
        /\ TodoList.finished_count l s = Ok finished
        /\ total
           = opened + finished
             + Z.of_nat (length (List.filter
                                   (fun i => match Todolist.is_finished i with
                                             | None => true | Some _ => false end)
                                   (TodoList.todos l s)))
        /\ opened + finished <= total
        /\ 0 <= opened /\ 0 <= finished).
Proof.
  unfold TodoList.todo_count, TodoList.open_count, TodoList.finished_count,
    TodoList.derived, TodoList.count.
  destruct (TodoList.bound l s); [right | left; auto].
  split; [reflexivity|]. do 3 eexists. repeat (split; [reflexivity|]).
  rewrite (filter_flag_partition (TodoList.todos l s)). lia.
Qed.

(** ** The projections *)



(** [todos_url] looks at the key and the creator only; a creator that
    is None or the empty string gives the list-scoped endpoint without a
    username, any other creator the user-scoped endpoint with it. *)
Theorem todos_url_owner `{!Flask} (l : TodoList.t) :
  (forall title created_at,
     TodoListViews.todos_url
       (TodoList.set__title title (TodoList.set_created_at created_at l))
     = TodoListViews.todos_url l)
  /\ TodoListViews.todos_url (TodoList.set_creator (Some []) l)
     = TodoListViews.todos_url (TodoList.set_creator None l)
  /\ TodoListViews.todos_url (TodoList.set_creator None l)
     = url_for (lit "api.get_Todolist_todos")
         [("Todolist_id"%string, of_opt_int (TodoList.id l));
          ("_external"%string, VBool true)]
  /\ (forall c, c <> [] ->
        TodoListViews.todos_url (TodoList.set_creator (Some c) l)
        = url_for (lit "api.get_user_Todolist_todos")
            [("Todolist_id"%string, of_opt_int (TodoList.id l));
             ("_external"%string, VBool true);
             ("username"%string, VStr c)]).
Proof.
  repeat split. intros [|c r] Hc; [congruence | reflexivity].
Qed.

(** [User.__repr__] tells an admin from a user and shows the handle:
    equal representations mean the same admin status and the same shown
    handle (an unset handle shows as the text None). *)
Theorem user_repr_tells (u1 u2 : User.t) :
  UserViews.__repr__ u1 = UserViews.__repr__ u2 ->
  truthy (User.is_admin u1) = truthy (User.is_admin u2)
  /\ show (User.username u1) = show (User.username u2).
Proof.
  unfold UserViews.__repr__.
  destruct (truthy (User.is_admin u1)), (truthy (User.is_admin u2));
    intros H; try discriminate H; (split; [reflexivity|]).
  - apply app_inv_head in H. now apply app_inv_tail in H.
  - apply app_inv_head in H. now apply app_inv_tail in H.
Qed.

Lemma user_repr_tells_witness :
  show (User.username User.new)
  = show (User.username (User.set__username (Some (lit "None")) User.new)).
Proof.
  apply (user_repr_tells User.new (User.set__username (Some (lit "None")) User.new)).
  reflexivity.
Defined.

(** ** config.py *)

Lemma path_join_relative (a b : str) :
  relative b -> Config.path_join a b = join_prefix a ++ b.
Proof.
  intros Hb.
  assert (Htail : forall b', match a with
                             | [] => a ++ b'
                             | _ => if (List.last a 0%N =? 47)%N
                                    then a ++ b' else a ++ 47%N :: b'
                             end = join_prefix a ++ b').
  { intros b'. unfold join_prefix. destruct a as [|x a]; [reflexivity|].
    destruct (List.last (x :: a) 0%N =? 47)%N; [reflexivity|].
    now rewrite <- app_assoc. }
  unfold Config.path_join. destruct b as [|c b]; [apply Htail|].
  destruct c as [|p]; [apply Htail|].
  repeat (destruct p as [p|p|]; try apply Htail).
  now contradiction (Hb b).
Qed.



Lemma relative_lit_t (rest : str) : relative (116%N :: rest).
Proof. intros r. discriminate. Qed.

(** Whatever the base directory, the development, testing and
    production configurations name three different databases, and the
    default configuration is the development one. *)
Theorem config_databases_distinct (BASEDIR : str) (env : option str) :
  let uri name := match Config.config BASEDIR env name with
                  | Some c => Config.SQLALCHEMY_DATABASE_URI c
                  | None => None
                  end in
  (exists d t p, uri "development"%string = Some d
                 /\ uri "testing"%string = Some t
                 /\ uri "production"%string = Some p
                 /\ d <> t /\ d <> p /\ t <> p)
  /\ Config.config BASEDIR env "default" = Config.config BASEDIR env "development".
Proof.
  cbv zeta. split; [|reflexivity].
  do 3 eexists. repeat (split; [reflexivity|]).
  assert (Hinj : forall n1 n2, relative n1 -> relative n2 -> n1 <> n2 ->
                   Config.create_sqlite_uri BASEDIR n1
                   <> Config.create_sqlite_uri BASEDIR n2).
  { intros n1 n2 H1 H2 Hne H. apply Hne. unfold Config.create_sqlite_uri in H.
    rewrite !path_join_relative in H by assumption.
    apply app_inv_head in H. now apply app_inv_head in H. }
  repeat split; apply Hinj; try apply relative_lit_t; discriminate.
Qed.

(** Every configuration has a non-empty SECRET_KEY: the value of the
    environment variable when it is set and not empty, the built-in
    testing key otherwise. *)
Theorem config_secret_key (BASEDIR : str) (env : option str)
    (name : string) (c : Config.t) :
  Config.config BASEDIR env name = Some c ->
  Config.SECRET_KEY c <> []
  /\ (forall k, env = Some k -> k <> [] -> Config.SECRET_KEY c = k)
  /\ (env = None \/ env = Some [] ->
      Config.SECRET_KEY c = lit "secret key, just for testing").
Proof.
  intros Hc.
  assert (Hk : Config.SECRET_KEY c = str_or env (lit "secret key, just for testing")).
  { unfold Config.config in Hc.
    repeat (destruct (String.eqb name _); [injection Hc as <-; reflexivity|]).
    discriminate. }
  rewrite Hk. split; [|split].
  - destruct env as [[|x k]|]; discriminate.
  - intros k -> Hne. destruct k; [congruence | reflexivity].
  - intros [-> | ->]; reflexivity.
Qed.

Lemma config_secret_key_witness :
  Config.SECRET_KEY (Config.TestingConfig (lit "/srv/app") (Some [])) <> [].
Proof.
  apply (proj1 (config_secret_key (lit "/srv/app") (Some []) "testing"
                  (Config.TestingConfig (lit "/srv/app") (Some [])) eq_refl)).
Defined.

(** ** User: the password round trip *)

Section PasswordRoundTrip.

Context {W : Werkzeug}.

(** What the hashing library promises: a hash verifies the password it
    was generated from. *)
Hypothesis hash_verifies :
  forall salt p, check_password_hash (generate_password_hash salt p) p = true.

(** Assigning a non-empty password either is refused because its hash is
    longer than 256 characters, and the object is as before, or stores
    the hash, and then [verify_password] of the same password is True; an
    assignment of the empty password after it is refused and changes
    nothing. *)
Theorem password_round_trip (u : User.t) (salt salt' : str) (s : str) :
  s <> [] ->
  let '(u', r) := User.password_setter salt s u in
  (256 < Z.of_nat (length (generate_password_hash salt s))
   /\ r = Raise (ValueError (lit "not a valid password, hash is too long"))
   /\ u' = u)
  \/ (Z.of_nat (length (generate_password_hash salt s)) <= 256
      /\ r = Ok tt
      /\ User.verify_password u' s = Ok true
      /\ User.password_setter salt' [] u'
         = (u', Raise (ValueError (lit "no password given")))
      /\ User.verify_password (fst (User.password_setter salt' [] u')) s = Ok true).
Proof.
  intros Hs. unfold User.password_setter at 1.
  destruct s as [|c s]; [congruence|].
  destruct (256 <? _) eqn:Hlt.
  - left. apply Z.ltb_lt in Hlt. unfold raise. auto.
  - right. apply Z.ltb_ge in Hlt. unfold modify.
    split; [exact Hlt|]. split; [reflexivity|].
    unfold User.verify_password. simpl. rewrite hash_verifies. auto.
Qed.

End PasswordRoundTrip.

Lemma password_round_trip_witness :
  @User.verify_password plain_scheme
    (fst (@User.password_setter plain_scheme (lit "NaCl") (lit "secret") User.new))
    (lit "secret")
  = Ok true.
Proof.
  pose proof (@password_round_trip plain_scheme
                (fun salt p => eq_trans (plain_scheme_check salt p p)
                                 (proj2 (str_eqb_eq p p) eq_refl))
                User.new (lit "NaCl") (lit "NaCl") (lit "secret")) as H.
  cbv zeta in H.
  destruct (@User.password_setter plain_scheme (lit "NaCl") (lit "secret") User.new)
    as [u' r] eqn:E.
  destruct H as [(Hlong & _) | (_ & _ & Hv & _)]; [discriminate | | exact Hv].
  vm_compute in Hlong. discriminate Hlong.
Defined.
